(** * The amd64 XSAVE area codec of [pkg/proc/amd64util/xsave.go]

    A shallow embedding of [AMD64XstateRead] (decode), [Decode] (project)
    and [SetXmmRegister] (encode), followed by the properties that relate
    them to the natural-language specification of the package.

    Conventions.
    - A Go [int] is a [Z]; arithmetic that the source performs on [int]
      goes through [int], the wrap-around to 64 signed bits.
    - A Go [[]byte] is a [slice]: the bytes below [len] and the bytes of
      the backing array between [len] and [cap].  Slice expressions follow
      the rules of the language specification and panic out of range.
    - A fixed-size array ([[256]byte], [[32]uint32]) is a list; [wf_xstate]
      records the lengths the Go types guarantee.
    - A function with a pointer receiver or an out-parameter is a
      computation in the monad [M], which threads the pointee and stops at
      the first [return] or panic. *)

From Stdlib Require Import ZArith Lia List Bool.
From Stdlib Require Import Strings.String Strings.Ascii Strings.Byte.
From Stdlib Require Import DecimalString.
From stdpp Require Import base list strings.
Import ListNotations.

Local Open Scope Z_scope.

(* ------------------------------------------------------------------ *)
(** ** Machine integers and bytes *)

(** Go's [int] on amd64: 64 bits, two's complement. *)
Definition int (z : Z) : Z := (z + 2 ^ 63) mod 2 ^ 64 - 2 ^ 63.

Definition byte_to_Z (b : byte) : Z := Z.of_N (Byte.to_N b).

Definition byte_of_Z (z : Z) : byte :=
  match Byte.of_N (Z.to_N (z mod 256)) with
  | Some b => b
  | None => x00
  end.

(** Little-endian value of a byte string: [b[0] | b[1]<<8 | ...]. *)
Fixpoint le_uint (bs : list byte) : Z :=
  match bs with
  | [] => 0
  | b :: bs' => byte_to_Z b + 256 * le_uint bs'
  end.

(** The [k] low bytes of [v], least significant first
    ([binary.Write] with [binary.LittleEndian]). *)
Fixpoint le_bytes (k : nat) (v : Z) : list byte :=
  match k with
  | O => []
  | S k' => byte_of_Z v :: le_bytes k' (Z.shiftr v 8)
  end.

(** [fmt]'s [%d]. *)
Definition itoa (z : Z) : string := NilZero.string_of_int (Z.to_int z).

(* ------------------------------------------------------------------ *)
(** ** Go slices of bytes *)

Record slice := mkSlice {
  elems : list byte;   (* s[0], ..., s[len(s)-1] *)
  spare : list byte    (* the backing array from len(s) up to cap(s) *)
}.

Definition len (s : slice) : Z := Z.of_nat (length (elems s)).
Definition cap (s : slice) : Z := Z.of_nat (length (elems s) + length (spare s)).

(** The backing array from [s[0]] up to [cap(s)]. *)
Definition backing (s : slice) : list byte := elems s ++ spare s.

(** The slice of [n] elements that starts where [arr] starts. *)
Definition view (arr : list byte) (n : nat) : slice :=
  {| elems := take n arr; spare := drop n arr |}.

(** [s[lo:hi]]: legal when [0 <= lo <= hi <= cap(s)]; [None] is the
    run-time panic "slice bounds out of range".  The result starts at
    [s[lo]], has [hi - lo] elements and keeps the rest of the backing
    array as capacity. *)
Definition slice_range (s : slice) (lo hi : Z) : option slice :=
  if (0 <=? lo) && (lo <=? hi) && (hi <=? cap s) then
    Some (view (drop (Z.to_nat lo) (backing s)) (Z.to_nat (hi - lo)))
  else None.

(** [s[lo:]] is [s[lo:len(s)]]. *)
Definition slice_from (s : slice) (lo : Z) : option slice :=
  slice_range s lo (len s).

(** [s[:hi]] is [s[0:hi]]. *)
Definition slice_to (s : slice) (hi : Z) : option slice :=
  slice_range s 0 hi.

(** The effect on [s] of [copy(s[pos:], src)] once [s[pos:]] has been
    formed: [min(len(s)-pos, len(src))] bytes are stored from index [pos],
    nothing is stored at or beyond [len(s)]. *)
Definition copy_at (s : slice) (pos : Z) (src : list byte) : slice :=
  {| elems := list_inserts (Z.to_nat pos) src (elems s);
     spare := spare s |}.

(** [copy(dst[:], src)] for an array [dst]. *)
Definition copy_array (dst src : list byte) : list byte :=
  list_inserts 0 src dst.

(** [binary.LittleEndian.Uint64(b)]: indexes [b[7]] first. *)
Definition Uint64 (b : slice) : option Z :=
  if 8 <=? len b then Some (le_uint (take 8 (elems b))) else None.

(* ------------------------------------------------------------------ *)
(** ** Errors *)

Inductive error :=
| EOF                      (* io.EOF *)
| ErrUnexpectedEOF         (* io.ErrUnexpectedEOF *)
| Errorf (msg : string).   (* fmt.Errorf *)

(* ------------------------------------------------------------------ *)
(** ** The register state *)

(** [AMD64PtraceFpRegs], the legacy region. *)
Record AMD64PtraceFpRegs := mkFpRegs {
  Cwd : Z;                 (* uint16 *)
  Swd : Z;                 (* uint16 *)
  Ftw : Z;                 (* uint16 *)
  Fop : Z;                 (* uint16 *)
  Rip : Z;                 (* uint64 *)
  Rdp : Z;                 (* uint64 *)
  Mxcsr : Z;               (* uint32 *)
  MxcrMask : Z;            (* uint32 *)
  StSpace : list Z;        (* [32]uint32 *)
  XmmSpace : list byte;    (* [256]byte *)
  Padding : list Z         (* [24]uint32 *)
}.

(** [AMD64Xstate]; [PtraceFpRegs] is the embedded [AMD64PtraceFpRegs]. *)
Record AMD64Xstate := mkXstate {
  PtraceFpRegs : AMD64PtraceFpRegs;
  Xsave : slice;
  AvxState : bool;
  YmmSpace : list byte;    (* [256]byte *)
  Avx512State : bool;
  ZmmSpace : list byte;    (* [512]byte *)
  zmmHi256offset : Z       (* int *)
}.

Definition set_PtraceFpRegs (v : AMD64PtraceFpRegs) (x : AMD64Xstate) :=
  mkXstate v (Xsave x) (AvxState x) (YmmSpace x) (Avx512State x)
           (ZmmSpace x) (zmmHi256offset x).
Definition set_Xsave (v : slice) (x : AMD64Xstate) :=
  mkXstate (PtraceFpRegs x) v (AvxState x) (YmmSpace x) (Avx512State x)
           (ZmmSpace x) (zmmHi256offset x).
Definition set_AvxState (v : bool) (x : AMD64Xstate) :=
  mkXstate (PtraceFpRegs x) (Xsave x) v (YmmSpace x) (Avx512State x)
           (ZmmSpace x) (zmmHi256offset x).
Definition set_YmmSpace (v : list byte) (x : AMD64Xstate) :=
  mkXstate (PtraceFpRegs x) (Xsave x) (AvxState x) v (Avx512State x)
           (ZmmSpace x) (zmmHi256offset x).
Definition set_Avx512State (v : bool) (x : AMD64Xstate) :=
  mkXstate (PtraceFpRegs x) (Xsave x) (AvxState x) (YmmSpace x) v
           (ZmmSpace x) (zmmHi256offset x).
Definition set_ZmmSpace (v : list byte) (x : AMD64Xstate) :=
  mkXstate (PtraceFpRegs x) (Xsave x) (AvxState x) (YmmSpace x)
           (Avx512State x) v (zmmHi256offset x).
Definition set_zmmHi256offset (v : Z) (x : AMD64Xstate) :=
  mkXstate (PtraceFpRegs x) (Xsave x) (AvxState x) (YmmSpace x)
           (Avx512State x) (ZmmSpace x) v.

(** The lengths fixed by the array types. *)
Definition wf_fpregs (r : AMD64PtraceFpRegs) : Prop :=
  length (StSpace r) = 32%nat /\ length (XmmSpace r) = 256%nat /\
  length (Padding r) = 24%nat.

Definition wf_xstate (x : AMD64Xstate) : Prop :=
  wf_fpregs (PtraceFpRegs x) /\
  length (YmmSpace x) = 256%nat /\ length (ZmmSpace x) = 512%nat.

(** The zero value of the struct ([var regset AMD64Xstate]). *)
Definition zero_fpregs : AMD64PtraceFpRegs :=
  mkFpRegs 0 0 0 0 0 0 0 0 (replicate 32 0) (replicate 256 x00) (replicate 24 0).

Definition zero_xstate : AMD64Xstate :=
  mkXstate zero_fpregs (mkSlice [] []) false (replicate 256 x00) false
           (replicate 512 x00) 0.

(* ------------------------------------------------------------------ *)
(** ** Control flow: pointee state, early return, panic *)

Inductive exit :=
| Return (err : option error)   (* [return err]; [None] is [nil] *)
| Panic.                        (* run-time panic *)

Inductive flow (A : Type) :=
| Next (a : A)
| Exit (e : exit).
Arguments Next {A} a.
Arguments Exit {A} e.

Definition M (A : Type) : Type := AMD64Xstate -> AMD64Xstate * flow A.

Definition ret {A} (a : A) : M A := fun s => (s, Next a).

Definition bind {A B} (m : M A) (k : A -> M B) : M B :=
  fun s =>
    match m s with
    | (s', Next a) => k a s'
    | (s', Exit e) => (s', Exit e)
    end.

Definition return_ {A} (err : option error) : M A :=
  fun s => (s, Exit (Return err)).

Definition panic {A} : M A := fun s => (s, Exit Panic).

Definition get : M AMD64Xstate := fun s => (s, Next s).

Definition modify (f : AMD64Xstate -> AMD64Xstate) : M unit :=
  fun s => (f s, Next tt).

(** [if c { body }] *)
Definition when (c : bool) (body : M unit) : M unit :=
  if c then body else ret tt.

(** An operation that panics when it has no result. *)
Definition must {A} (o : option A) : M A :=
  match o with
  | Some a => ret a
  | None => panic
  end.

Declare Scope go_scope.
Delimit Scope go_scope with go.
Notation "x <- m ;; k" := (bind m (fun x => k))
  (at level 100, m at next level, right associativity) : go_scope.
Notation "m ;; k" := (bind m (fun _ => k))
  (at level 100, right associativity) : go_scope.

(** Calling a function whose body is [m] on the pointee [s]: the pointee
    afterwards and how the call ended. *)
Definition call {A} (m : M A) (s : AMD64Xstate) : AMD64Xstate * exit :=
  match m s with
  | (s', Exit e) => (s', e)
  | (s', Next _) => (s', Return None)
  end.

(* ------------------------------------------------------------------ *)
(** ** [encoding/binary]: reading the legacy record *)

(** One little-endian field of [k] bytes taken from the front of the
    data, and the rest of the data. *)
Definition dec_uint (k : nat) (bs : list byte) : Z * list byte :=
  (le_uint (take k bs), drop k bs).

(** An array of [n] fields of [k] bytes each. *)
Fixpoint dec_uints (k n : nat) (bs : list byte) : list Z * list byte :=
  match n with
  | O => ([], bs)
  | S n' =>
      let '(v, bs1) := dec_uint k bs in
      let '(vs, bs2) := dec_uints k n' bs1 in
      (v :: vs, bs2)
  end.

Definition dec_bytes (n : nat) (bs : list byte) : list byte * list byte :=
  (take n bs, drop n bs).

(** The fields of [AMD64PtraceFpRegs] in declaration order. *)
Definition dec_fpregs (bs : list byte) : AMD64PtraceFpRegs :=
  let '(cwd, bs) := dec_uint 2 bs in
  let '(swd, bs) := dec_uint 2 bs in
  let '(ftw, bs) := dec_uint 2 bs in
  let '(fop, bs) := dec_uint 2 bs in
  let '(rip, bs) := dec_uint 8 bs in
  let '(rdp, bs) := dec_uint 8 bs in
  let '(mxcsr, bs) := dec_uint 4 bs in
  let '(mxcr_mask, bs) := dec_uint 4 bs in
  let '(st_space, bs) := dec_uints 4 32 bs in
  let '(xmm_space, bs) := dec_bytes 256 bs in
  let '(padding, _) := dec_uints 4 24 bs in
  mkFpRegs cwd swd ftw fop rip rdp mxcsr mxcr_mask st_space xmm_space padding.

(** [binary.Size] of [AMD64PtraceFpRegs]. *)
Definition sizeof_fpregs : nat := 512.

(** [binary.Read(rdr, binary.LittleEndian, &regs)] on a reader holding
    [r]: [io.ReadFull] of [sizeof_fpregs] bytes, then the decoding.  The
    destination is written only when the read is complete. *)
Definition binary_Read (r : list byte) : error + AMD64PtraceFpRegs :=
  if (length r =? 0)%nat then inl EOF
  else if (length r <? sizeof_fpregs)%nat then inl ErrUnexpectedEOF
  else inr (dec_fpregs (take sizeof_fpregs r)).

(* ------------------------------------------------------------------ *)
(** ** Layout constants and component bitmaps *)

Definition _XSAVE_XMM_REGION_START : Z := 160.
Definition _XSAVE_HEADER_START : Z := 512.
Definition _XSAVE_HEADER_LEN : Z := 64.
Definition _XSAVE_EXTENDED_REGION_START : Z := 576.
Definition _XSAVE_SSE_REGION_LEN : Z := 416.
Definition _I386_LINUX_XSAVE_XCR0_OFFSET : Z := 464.

(** [xstate_bv] is a [uint64]. *)
Definition hasAVX (s : Z) : bool := negb (Z.land s (Z.shiftl 1 2) =? 0).
Definition hasZMM_Hi256 (s : Z) : bool := negb (Z.land s (Z.shiftl 1 6) =? 0).
Definition hasHi16_ZMM (s : Z) : bool := negb (Z.land s (Z.shiftl 1 7) =? 0).
Definition hasPKRU (s : Z) : bool := negb (Z.land s (Z.shiftl 1 9) =? 0).

(** [len(regset.YmmSpace)] and [len(regset.ZmmSpace)]: constants of the
    array types. *)
Definition len_YmmSpace : Z := 256.
Definition len_ZmmSpace : Z := 512.

(* ------------------------------------------------------------------ *)
(** ** [AMD64XstateRead] *)

Section Decoder.
Local Open Scope go_scope.

(** Lines 133-143: the offset of the ZMM_Hi256 component. *)
Definition resolve_ZMMHi256Offset (xcr0 : Z) (xstateargs : slice)
    (xstateZMMHi256Offset : Z) : Z :=
  if xstateZMMHi256Offset =? 0 then
    if hasPKRU xcr0 && (len xstateargs =? 2440) then 896 else 1152
  else xstateZMMHi256Offset.

(** The body of [AMD64XstateRead]; the state of [M] is [*regset]. *)
Definition AMD64XstateRead_body (xstateargs : slice) (readLegacy : bool)
    (xstateZMMHi256Offset : Z) : M unit :=
  when (_XSAVE_HEADER_START + _XSAVE_HEADER_LEN >=? len xstateargs)
    (return_ None) ;;
  when readLegacy
    (rdr <- must (slice_to xstateargs _XSAVE_HEADER_START) ;;
     match binary_Read (elems rdr) with
     | inl err => return_ (Some err)
     | inr regs => modify (set_PtraceFpRegs regs)
     end) ;;
  xcr0_tail <- must (slice_from xstateargs _I386_LINUX_XSAVE_XCR0_OFFSET) ;;
  xcr0_bytes <- must (slice_to xcr0_tail 8) ;;
  xcr0 <- must (Uint64 xcr0_bytes) ;;
  xsaveheader <- must (slice_range xstateargs _XSAVE_HEADER_START
                         (_XSAVE_HEADER_START + _XSAVE_HEADER_LEN)) ;;
  bv_bytes <- must (slice_range xsaveheader 0 8) ;;
  xstate_bv <- must (Uint64 bv_bytes) ;;
  comp_bytes <- must (slice_range xsaveheader 8 16) ;;
  xcomp_bv <- must (Uint64 comp_bytes) ;;
  when (negb (Z.land xcomp_bv (Z.shiftl 1 63) =? 0))
    (return_ None) ;;      (* compact format not supported *)
  when (negb (hasAVX xstate_bv))
    (return_ None) ;;
  avxstate <- must (slice_from xstateargs _XSAVE_EXTENDED_REGION_START) ;;
  modify (set_AvxState true) ;;
  ymm_src <- must (slice_to avxstate len_YmmSpace) ;;
  modify (fun r => set_YmmSpace (copy_array (YmmSpace r) (elems ymm_src)) r) ;;
  when (negb (hasZMM_Hi256 xstate_bv))
    (return_ None) ;;
  let xstateZMMHi256Offset :=
    resolve_ZMMHi256Offset xcr0 xstateargs xstateZMMHi256Offset in
  modify (set_zmmHi256offset xstateZMMHi256Offset) ;;
  avx512state <- must (slice_from xstateargs xstateZMMHi256Offset) ;;
  modify (set_Avx512State true) ;;
  zmm_src <- must (slice_to avx512state len_ZmmSpace) ;;
  modify (fun r => set_ZmmSpace (copy_array (ZmmSpace r) (elems zmm_src)) r) ;;
  return_ None.

(** [AMD64XstateRead(xstateargs, readLegacy, regset, xstateZMMHi256Offset)]:
    [*regset] after the call, and the error returned or the panic. *)
Definition AMD64XstateRead (xstateargs : slice) (readLegacy : bool)
    (regset : AMD64Xstate) (xstateZMMHi256Offset : Z) : AMD64Xstate * exit :=
  call (AMD64XstateRead_body xstateargs readLegacy xstateZMMHi256Offset) regset.

End Decoder.

(* ------------------------------------------------------------------ *)
(** ** The register list of [pkg/proc] *)

(** Modelled from the spec: [proc.Register], [proc.AppendUint64Register]
    and [proc.AppendBytesRegister] are declared in [pkg/proc], outside the
    codec.  The spec describes the list as an ordered sequence of named
    values, each either a 64-bit value or a string of bytes whose width is
    its length; the two functions append one such row at the end. *)
Inductive RegValue :=
| Uint64Val (v : Z)
| BytesVal (bs : list byte).

Record Register := mkRegister { Name : string; Reg : RegValue }.

Definition AppendUint64Register (regs : list Register) (name : string)
    (value : Z) : list Register :=
  regs ++ [mkRegister name (Uint64Val value)].

Definition AppendBytesRegister (regs : list Register) (name : string)
    (value : list byte) : list Register :=
  regs ++ [mkRegister name (BytesVal value)].

(** Width of a row in bytes. *)
Definition reg_width (r : Register) : nat :=
  match Reg r with
  | Uint64Val _ => 8%nat
  | BytesVal bs => length bs
  end.

(* ------------------------------------------------------------------ *)
(** ** [Decode] *)

(** Conversions to unsigned types. *)
Definition uint16 (z : Z) : Z := z mod 2 ^ 16.
Definition uint64 (z : Z) : Z := z mod 2 ^ 64.

(** [a[lo:hi]] on an array, bounds within the array. *)
Definition array_slice {A} (a : list A) (lo hi : Z) : list A :=
  take (Z.to_nat (hi - lo)) (drop (Z.to_nat lo) a).

(** [len(xstate.StSpace)] and [len(xstate.XmmSpace)]. *)
Definition len_StSpace : Z := 32.
Definition len_XmmSpace : Z := 256.

(** [for i := 0; i < len(xstate.StSpace); i += 4 { ... }], entered with
    the current [i] and [regs]; [fuel] bounds the number of iterations. *)
Fixpoint Decode_st_loop (fuel : nat) (xstate : AMD64Xstate) (i : Z)
    (regs : list Register) : list Register :=
  match fuel with
  | O => regs
  | S fuel' =>
      if i <? len_StSpace then
        let st := StSpace (PtraceFpRegs xstate) in
        let buf :=
          le_bytes 8 (Z.lor (uint64 (Z.shiftl (uint64 (st !!! Z.to_nat (i + 1))) 32))
                            (uint64 (st !!! Z.to_nat i)))
          ++ le_bytes 2 (uint16 (st !!! Z.to_nat (i + 2))) in
        let regs :=
          AppendBytesRegister regs ("ST(" +:+ itoa (i ÷ 4) +:+ ")") buf in
        Decode_st_loop fuel' xstate (int (i + 4)) regs
      else regs
  end.

(** [for i := 0; i < len(xstate.XmmSpace); i += 16 { ... }]. *)
Fixpoint Decode_xmm_loop (fuel : nat) (xstate : AMD64Xstate) (i : Z)
    (regs : list Register) : list Register :=
  match fuel with
  | O => regs
  | S fuel' =>
      if i <? len_XmmSpace then
        let n := i ÷ 16 in
        let regs :=
          AppendBytesRegister regs ("XMM" +:+ itoa n)
            (array_slice (XmmSpace (PtraceFpRegs xstate)) i (i + 16)) in
        let regs :=
          if AvxState xstate then
            let regs :=
              AppendBytesRegister regs ("YMM" +:+ itoa n)
                (array_slice (YmmSpace xstate) i (i + 16)) in
            if Avx512State xstate then
              AppendBytesRegister regs ("ZMM" +:+ itoa n)
                (array_slice (ZmmSpace xstate) (n * 32) ((n + 1) * 32))
            else regs
          else regs in
        Decode_xmm_loop fuel' xstate (int (i + 16)) regs
      else regs
  end.

(** [xstate.Decode()].  Each loop advances [i] by at least one, so the
    length of the array is fuel enough ([Decode_st_loop_fuel],
    [Decode_xmm_loop_fuel]). *)
Definition Decode (xstate : AMD64Xstate) : list Register :=
  let fp := PtraceFpRegs xstate in
  let regs := [] in
  (* x87 registers *)
  let regs := AppendUint64Register regs "CW" (uint64 (Cwd fp)) in
  let regs := AppendUint64Register regs "SW" (uint64 (Swd fp)) in
  let regs := AppendUint64Register regs "TW" (uint64 (Ftw fp)) in
  let regs := AppendUint64Register regs "FOP" (uint64 (Fop fp)) in
  let regs := AppendUint64Register regs "FIP" (Rip fp) in
  let regs := AppendUint64Register regs "FDP" (Rdp fp) in
  let regs := Decode_st_loop (Z.to_nat len_StSpace) xstate 0 regs in
  (* SSE registers *)
  let regs := AppendUint64Register regs "MXCSR" (uint64 (Mxcsr fp)) in
  let regs := AppendUint64Register regs "MXCSR_MASK" (uint64 (MxcrMask fp)) in
  Decode_xmm_loop (Z.to_nat len_XmmSpace) xstate 0 regs.

(* ------------------------------------------------------------------ *)
(** ** [SetXmmRegister] *)

Section Encoder.
Local Open Scope go_scope.

(** [len(value)] for a byte string. *)
Definition blen (value : list byte) : Z := Z.of_nat (length value).

(** The body of [SetXmmRegister]; the state of [M] is [*xstate], whose
    [Xsave] stands for the bytes of the raw buffer it refers to.  [value]
    shares no memory with [xstate.Xsave]. *)
Definition SetXmmRegister_body (n : Z) (value : list byte) : M unit :=
  when (n >=? 16)
    (return_ (Some (Errorf
       ("setting register XMM" +:+ itoa n +:+ " not supported")))) ;;
  when (blen value >? 64)
    (return_ (Some (Errorf
       ("value of register XMM" +:+ itoa n +:+ " too large ("
        +:+ itoa (blen value) +:+ " bytes)")))) ;;

  (* Copy least significant 16 bytes to Xsave area *)
  let xmmval := if blen value >? 16 then take 16 value else value in
  let rest := drop (length xmmval) value in
  let xmmpos := int (_XSAVE_XMM_REGION_START + int (n * 16)) in
  xstate <- get ;;
  when (xmmpos >=? len (Xsave xstate))
    (return_ (Some (Errorf
       ("could not set XMM" +:+ itoa n +:+ ": not in XSAVE area")))) ;;
  _ <- must (slice_from (Xsave xstate) xmmpos) ;;
  modify (fun x => set_Xsave (copy_at (Xsave x) xmmpos xmmval) x) ;;
  when (blen rest =? 0)
    (return_ None) ;;

  (* Copy bytes [16, 32) to Xsave area *)
  let ymmval := if blen rest >? 16 then take 16 rest else rest in
  let rest := drop (length ymmval) rest in
  let ymmpos := int (_XSAVE_EXTENDED_REGION_START + int (n * 16)) in
  xstate <- get ;;
  when (ymmpos >=? len (Xsave xstate))
    (return_ (Some (Errorf
       ("could not set XMM" +:+ itoa n +:+ ": bytes 16.."
        +:+ itoa (int (16 + blen ymmval)) +:+ " not in XSAVE area")))) ;;
  _ <- must (slice_from (Xsave xstate) ymmpos) ;;
  modify (fun x => set_Xsave (copy_at (Xsave x) ymmpos ymmval) x) ;;
  when (blen rest =? 0)
    (return_ None) ;;

  (* Copy bytes [32, 64) to Xsave area *)
  let zmmval := rest in
  xstate <- get ;;
  let zmmpos := int (zmmHi256offset xstate + int (n * 32)) in
  when (zmmpos >=? len (Xsave xstate))
    (return_ (Some (Errorf
       ("could not set XMM" +:+ itoa n +:+ ": bytes 32.."
        +:+ itoa (int (32 + blen zmmval)) +:+ " not in XSAVE area")))) ;;
  _ <- must (slice_from (Xsave xstate) zmmpos) ;;
  modify (fun x => set_Xsave (copy_at (Xsave x) zmmpos zmmval) x) ;;
  return_ None.

(** [xstate.SetXmmRegister(n, value)]: [*xstate] after the call, and the
    error returned or the panic. *)
Definition SetXmmRegister (xstate : AMD64Xstate) (n : Z) (value : list byte)
    : AMD64Xstate * exit :=
  call (SetXmmRegister_body n value) xstate.

End Encoder.

(* ------------------------------------------------------------------ *)
(** ** Notions used to state the properties *)

(** The 64-bit little-endian field at byte offset [off] of a buffer. *)
Definition field64 (xs : slice) (off : nat) : Z :=
  le_uint (take 8 (drop off (elems xs))).

(** The per-process bitmap, the header bitmap and the compaction flag. *)
Definition xcr0_of (xs : slice) : Z := field64 xs 464.
Definition xstate_bv_of (xs : slice) : Z := field64 xs 512.
Definition xcomp_bv_of (xs : slice) : Z := field64 xs 520.

(** The [k] bytes at byte offset [off] of a buffer, and their
    little-endian value. *)
Definition bytes_at (xs : slice) (off k : nat) : list byte :=
  take k (drop off (elems xs)).

Definition field_le (xs : slice) (off k : nat) : Z :=
  le_uint (bytes_at xs off k).

(** The value of the first row called [name]. *)
Definition lookup_reg (name : string) (regs : list Register) : option RegValue :=
  option_map Reg (List.find (fun r => String.eqb (Name r) name) regs).

(** The invariant of the data model: AVX-512 presence implies AVX
    presence. *)
Definition avx_invariant (x : AMD64Xstate) : Prop :=
  Avx512State x = true -> AvxState x = true.

(** Ranges of the unsigned integer types of the legacy record. *)
Definition in_uint (bits : Z) (v : Z) : Prop := 0 <= v < 2 ^ bits.

Definition typed_fpregs (r : AMD64PtraceFpRegs) : Prop :=
  in_uint 16 (Cwd r) /\ in_uint 16 (Swd r) /\ in_uint 16 (Ftw r) /\
  in_uint 16 (Fop r) /\ in_uint 64 (Rip r) /\ in_uint 64 (Rdp r) /\
  in_uint 32 (Mxcsr r) /\ in_uint 32 (MxcrMask r) /\
  Forall (in_uint 32) (StSpace r) /\ Forall (in_uint 32) (Padding r).

(** A value of the Go type [AMD64Xstate]: array lengths and integer
    ranges. *)
Definition typed_xstate (x : AMD64Xstate) : Prop :=
  wf_xstate x /\ typed_fpregs (PtraceFpRegs x).

(** The register list as the specification words it. *)
Module Spec.

(** Control, status, tag and opcode words, instruction and data pointer. *)
Definition x87_rows (x : AMD64Xstate) : list Register :=
  let fp := PtraceFpRegs x in
  [ mkRegister "CW" (Uint64Val (Cwd fp));
    mkRegister "SW" (Uint64Val (Swd fp));
    mkRegister "TW" (Uint64Val (Ftw fp));
    mkRegister "FOP" (Uint64Val (Fop fp));
    mkRegister "FIP" (Uint64Val (Rip fp));
    mkRegister "FDP" (Uint64Val (Rdp fp)) ].

(** [ST(k)]: the mantissa from the two 32-bit words of slot [k], low word
    first, then the low 16 bits of the third word. *)
Definition st_row (x : AMD64Xstate) (k : nat) : Register :=
  let st := StSpace (PtraceFpRegs x) in
  mkRegister ("ST(" +:+ itoa (Z.of_nat k) +:+ ")")
    (BytesVal (le_bytes 4 (st !!! (4 * k)%nat)
               ++ le_bytes 4 (st !!! (4 * k + 1)%nat)
               ++ le_bytes 2 (st !!! (4 * k + 2)%nat))).

Definition mxcsr_rows (x : AMD64Xstate) : list Register :=
  let fp := PtraceFpRegs x in
  [ mkRegister "MXCSR" (Uint64Val (Mxcsr fp));
    mkRegister "MXCSR_MASK" (Uint64Val (MxcrMask fp)) ].

(** The rows of vector register [n]: [XMMn] always, the [YMMn] high half
    when AVX is present, the [ZMMn] high half when AVX-512 is present as
    well; under [avx_invariant] the last condition is AVX-512 presence
    alone. *)
Definition vector_rows (x : AMD64Xstate) (n : nat) : list Register :=
  [ mkRegister ("XMM" +:+ itoa (Z.of_nat n))
      (BytesVal (take 16 (drop (16 * n) (XmmSpace (PtraceFpRegs x))))) ]
  ++ (if AvxState x then
        [ mkRegister ("YMM" +:+ itoa (Z.of_nat n))
            (BytesVal (take 16 (drop (16 * n) (YmmSpace x)))) ]
      else [])
  ++ (if AvxState x && Avx512State x then
        [ mkRegister ("ZMM" +:+ itoa (Z.of_nat n))
            (BytesVal (take 32 (drop (32 * n) (ZmmSpace x)))) ]
      else []).

Definition project (x : AMD64Xstate) : list Register :=
  x87_rows x ++ map (st_row x) (seq 0 8) ++ mxcsr_rows x
  ++ flat_map (vector_rows x) (seq 0 16).

(** Widths of the rows of [project], in order. *)
Definition widths (x : AMD64Xstate) : list nat :=
  replicate 6 8%nat ++ replicate 8 10%nat ++ [8; 8]%nat
  ++ flat_map (fun _ : nat =>
       [16%nat] ++ (if AvxState x then [16%nat] else [])
       ++ (if AvxState x && Avx512State x then [32%nat] else []))
     (seq 0 16).

End Spec.

(** The rows of [Decode] with its loops unrolled and its conversions
    kept: the link between the code and [Spec.project]. *)
Module Unrolled.

Definition x87_rows (x : AMD64Xstate) : list Register :=
  let fp := PtraceFpRegs x in
  [ mkRegister "CW" (Uint64Val (uint64 (Cwd fp)));
    mkRegister "SW" (Uint64Val (uint64 (Swd fp)));
    mkRegister "TW" (Uint64Val (uint64 (Ftw fp)));
    mkRegister "FOP" (Uint64Val (uint64 (Fop fp)));
    mkRegister "FIP" (Uint64Val (Rip fp));
    mkRegister "FDP" (Uint64Val (Rdp fp)) ].

(** Iteration [k] of the first loop, [i = 4 k]. *)
Definition st_row (x : AMD64Xstate) (k : nat) : Register :=
  let st := StSpace (PtraceFpRegs x) in
  mkRegister ("ST(" +:+ itoa (Z.of_nat k) +:+ ")")
    (BytesVal
       (le_bytes 8 (Z.lor (uint64 (Z.shiftl (uint64 (st !!! (4 * k + 1)%nat)) 32))
                          (uint64 (st !!! (4 * k)%nat)))
        ++ le_bytes 2 (uint16 (st !!! (4 * k + 2)%nat)))).

Definition mxcsr_rows (x : AMD64Xstate) : list Register :=
  let fp := PtraceFpRegs x in
  [ mkRegister "MXCSR" (Uint64Val (uint64 (Mxcsr fp)));
    mkRegister "MXCSR_MASK" (Uint64Val (uint64 (MxcrMask fp))) ].

Definition rows (x : AMD64Xstate) : list Register :=
  x87_rows x ++ map (st_row x) (seq 0 8) ++ mxcsr_rows x
  ++ flat_map (Spec.vector_rows x) (seq 0 16).

End Unrolled.

(* ------------------------------------------------------------------ *)
(** ** Claims that the code does not satisfy, as they are worded *)

Module AsStated.

(** A buffer shorter than 576 bytes, decoded into a fresh state with the
    legacy parse requested: no AVX, no AVX-512; the legacy state populated
    when the buffer has the 512 bytes of the legacy region; an error when
    it has not. *)
Definition C1 (xs : slice) : Prop :=
  let r := AMD64XstateRead xs true zero_xstate 0 in
  AvxState (fst r) = false /\ Avx512State (fst r) = false /\
  (512 <= len xs ->
   snd r = Return None /\
   PtraceFpRegs (fst r) = dec_fpregs (take 512 (elems xs))) /\
  (len xs < 512 -> exists err, snd r = Return (Some err)).


(** [SetXmmRegister] fails with an error at an index of 16 or more and on
    a value of more than 64 bytes; a 64-byte value at an index from 0 to
    15, on a buffer that holds the first two slices and does not hold the
    whole third slice, fails with an error, the first two slices stored
    in the buffer. *)
Definition C5 (st : AMD64Xstate) (n : Z) (value : list byte) : Prop :=
  let r := SetXmmRegister st n value in
  let xs := Xsave st in
  let after := elems (Xsave (fst r)) in
  let xmmpos := _XSAVE_XMM_REGION_START + n * 16 in
  let ymmpos := _XSAVE_EXTENDED_REGION_START + n * 16 in
  let zmmpos := int (zmmHi256offset st + n * 32) in
  (16 <= n -> exists msg, snd r = Return (Some (Errorf msg))) /\
  (64 < blen value -> exists msg, snd r = Return (Some (Errorf msg))) /\
  (0 <= n <= 15 -> blen value = 64 ->
   ymmpos + 16 <= len xs -> len xs < zmmpos + 32 ->
   (exists msg, snd r = Return (Some (Errorf msg))) /\
   array_slice after xmmpos (xmmpos + 16) = take 16 value /\
   array_slice after ymmpos (ymmpos + 16) = take 16 (drop 16 value)).

End AsStated.

(* ------------------------------------------------------------------ *)
(** ** Concrete inputs *)

Module Inputs.

(** [n] zero bytes with the bytes of [upd] stored at their indices;
    [cap = len]. *)
Definition buffer (n : nat) (upd : list (nat * byte)) : slice :=
  mkSlice (fold_right (fun p l => <[fst p := snd p]> l) (replicate n x00) upd) [].

(** A register state that refers to the raw buffer [xs]. *)
Definition state_on (xs : slice) : AMD64Xstate := set_Xsave xs zero_xstate.

(** 520 bytes: a complete legacy region (control word 0x037f) and nothing
    else. *)
Definition legacy_only : slice := buffer 520 [(0%nat, x7f); (1%nat, x03)].

(** 100 bytes: shorter than the legacy region. *)
Definition tiny : slice := buffer 100 [].

(** 600 bytes, AVX bit set in the header bitmap, standard format. *)
Definition avx_truncated : slice := buffer 600 [(512%nat, x04)].

(** As [avx_truncated], cut out of a larger array whose bytes beyond the
    buffer are 0xff. *)
Definition avx_truncated_spare : slice :=
  mkSlice (elems avx_truncated) (replicate 400 xff).

(** 1000 bytes, AVX and ZMM_Hi256 bits set, standard format. *)
Definition avx512_truncated : slice := buffer 1000 [(512%nat, x44)].

(** 832 bytes, AVX bit set, control word 0x037f, [XMM3] = 01 02 ... 10. *)
Definition avx_area : slice :=
  buffer 832 ([(0%nat, x7f); (1%nat, x03); (512%nat, x04)]
              ++ imap (fun i b => ((208 + i)%nat, b))
                   [x01; x02; x03; x04; x05; x06; x07; x08;
                    x09; x0a; x0b; x0c; x0d; x0e; x0f; x10]).

(** 2440 bytes, AVX and ZMM_Hi256 bits set, PKRU bit set in the
    per-process bitmap. *)
Definition amd_area : slice :=
  buffer 2440 [(465%nat, x02); (512%nat, x44)].

(** 2696 bytes, AVX and ZMM_Hi256 bits set, PKRU bit set in the
    per-process bitmap. *)
Definition intel_area : slice :=
  buffer 2696 [(465%nat, x02); (512%nat, x44)].

(** As [amd_area] with the top bit of the compaction flag set. *)
Definition compact_area : slice :=
  buffer 2440 [(465%nat, x02); (512%nat, x44); (527%nat, x80)].

(** A 64-byte register value: 16 bytes 0x11, 16 bytes 0x22, 32 bytes
    0x33. *)
Definition value64 : list byte :=
  replicate 16 x11 ++ replicate 16 x22 ++ replicate 32 x33.

Definition value16 : list byte := replicate 16 x11.

(** The state a caller holds after decoding [intel_area] in place: its
    [Xsave] is the buffer, its vendor offset is the resolved one. *)
Definition intel_state : AMD64Xstate :=
  fst (AMD64XstateRead intel_area true (state_on intel_area) 0).

(** A state on a buffer that ends after the AVX block, with the vendor
    offset of the Intel layout. *)
Definition avx_only_state : AMD64Xstate :=
  set_zmmHi256offset 1152 (state_on (buffer 832 [])).

(** A state on a buffer of 1260 bytes with the vendor offset of the Intel
    layout: the third slice of [XMM3] starts at 1248 and would end at
    1280, beyond the buffer. *)
Definition third_slice_cut_state : AMD64Xstate :=
  set_zmmHi256offset 1152 (state_on (buffer 1260 [])).

End Inputs.

(* ================================================================== *)
(** * Properties *)

(** ** Integers and bits *)

Lemma int_id z : - 2 ^ 63 <= z < 2 ^ 63 -> int z = z.
Proof.
  intros Hz. unfold int.
  rewrite Z.mod_small; lia.
Qed.

Lemma int_range z : - 2 ^ 63 <= int z < 2 ^ 63.
Proof.
  unfold int.
  pose proof (Z.mod_pos_bound (z + 2 ^ 63) (2 ^ 64) ltac:(lia)). lia.
Qed.

(** A one-bit mask selects exactly that bit. *)
Lemma land_bit_testbit s k :
  0 <= k -> negb (Z.land s (Z.shiftl 1 k) =? 0) = Z.testbit s k.
Proof.
  intros Hk. rewrite Z.shiftl_1_l.
  destruct (Z.testbit s k) eqn:Hb.
  - apply negb_true_iff, Z.eqb_neq. intros H0.
    assert (Z.testbit (Z.land s (2 ^ k)) k = true) as Hc
      by (rewrite Z.land_spec, Hb, Z.pow2_bits_true; auto).
    rewrite H0, Z.bits_0 in Hc. discriminate.
  - apply negb_false_iff, Z.eqb_eq, Z.bits_inj'. intros m Hm.
    rewrite Z.land_spec, Z.bits_0.
    destruct (Z.eq_dec k m) as [<- | Hne].
    + rewrite Hb. reflexivity.
    + rewrite Z.pow2_bits_false by auto. apply andb_false_r.
Qed.

Lemma hasAVX_testbit s : hasAVX s = Z.testbit s 2.
Proof. apply land_bit_testbit; lia. Qed.

Lemma hasZMM_Hi256_testbit s : hasZMM_Hi256 s = Z.testbit s 6.
Proof. apply land_bit_testbit; lia. Qed.

Lemma hasPKRU_testbit s : hasPKRU s = Z.testbit s 9.
Proof. apply land_bit_testbit; lia. Qed.

(** ** Slices *)

Lemma backing_view arr n : backing (view arr n) = arr.
Proof. apply take_drop. Qed.

Lemma cap_backing s : cap s = Z.of_nat (length (backing s)).
Proof. unfold cap, backing. rewrite length_app. reflexivity. Qed.

Lemma len_view arr n : (n <= length arr)%nat -> len (view arr n) = Z.of_nat n.
Proof. intros Hn. unfold len, view; simpl. rewrite length_take. lia. Qed.

Lemma cap_view arr n : cap (view arr n) = Z.of_nat (length arr).
Proof. rewrite cap_backing, backing_view. reflexivity. Qed.

Lemma len_le_cap s : len s <= cap s.
Proof. unfold len, cap. lia. Qed.

Lemma slice_range_Some s lo hi :
  0 <= lo -> lo <= hi -> hi <= cap s ->
  slice_range s lo hi =
    Some (view (drop (Z.to_nat lo) (backing s)) (Z.to_nat (hi - lo))).
Proof.
  intros H0 H1 H2. unfold slice_range.
  rewrite (proj2 (Z.leb_le _ _) H0), (proj2 (Z.leb_le _ _) H1),
          (proj2 (Z.leb_le _ _) H2).
  reflexivity.
Qed.

Lemma slice_range_None s lo hi :
  lo < 0 \/ hi < lo \/ cap s < hi -> slice_range s lo hi = None.
Proof.
  intros H. unfold slice_range.
  destruct (0 <=? lo) eqn:E0; [| reflexivity].
  destruct (lo <=? hi) eqn:E1; [| reflexivity].
  destruct (hi <=? cap s) eqn:E2; [| reflexivity].
  apply Z.leb_le in E0, E1, E2. lia.
Qed.

(** Below [len] the backing array is the buffer itself. *)
Lemma take_drop_backing s (off k : nat) :
  (off + k <= length (elems s))%nat ->
  take k (drop off (backing s)) = take k (drop off (elems s)).
Proof.
  intros H. unfold backing.
  rewrite drop_app_le by lia.
  rewrite take_app_le by (rewrite length_drop; lia).
  reflexivity.
Qed.

(** A 64-bit field read through nested slice expressions. *)
Lemma Uint64_view arr n :
  (8 <= n)%nat -> (n <= length arr)%nat ->
  Uint64 (view arr n) = Some (le_uint (take 8 arr)).
Proof.
  intros H8 Hn. unfold Uint64. rewrite len_view by lia.
  rewrite (proj2 (Z.leb_le _ _)) by lia.
  unfold view; simpl. rewrite take_take. f_equal. f_equal. f_equal. lia.
Qed.

(** ** Running the monad *)

Lemma bind_when_false {B} c body (k : unit -> M B) s :
  c = false -> bind (when c body) k s = k tt s.
Proof. intros ->. reflexivity. Qed.

Lemma bind_when_return {B} c e (k : unit -> M B) s :
  c = true -> bind (when c (return_ e)) k s = (s, Exit (Return e)).
Proof. intros ->. reflexivity. Qed.

Lemma bind_must_Some {A B} (o : option A) a (k : A -> M B) s :
  o = Some a -> bind (must o) k s = k a s.
Proof. intros ->. reflexivity. Qed.

Lemma bind_must_None {A B} (o : option A) (k : A -> M B) s :
  o = None -> bind (must o) k s = (s, Exit Panic).
Proof. intros ->. reflexivity. Qed.

Lemma bind_modify {B} f (k : unit -> M B) s :
  bind (modify f) k s = k tt (f s).
Proof. reflexivity. Qed.

Lemma bind_get {B} (k : AMD64Xstate -> M B) s : bind get k s = k s s.
Proof. reflexivity. Qed.

(** ** [AMD64XstateRead], case by case *)

Ltac slice_side :=
  rewrite ?cap_view, ?backing_view, ?length_drop, ?length_take; try lia.

(** Runs one slice expression or field read that is within bounds. *)
Ltac do_slice :=
  erewrite bind_must_Some
    by (first [ apply slice_range_Some; slice_side
              | apply Uint64_view; slice_side ]).


Lemma binary_Read_full r :
  (sizeof_fpregs <= length r)%nat ->
  binary_Read r = inr (dec_fpregs (take sizeof_fpregs r)).
Proof.
  intros H. unfold binary_Read, sizeof_fpregs in *.
  destruct (length r =? 0)%nat eqn:E0; [apply Nat.eqb_eq in E0; lia |].
  destruct (length r <? 512)%nat eqn:E1; [apply Nat.ltb_lt in E1; lia |].
  reflexivity.
Qed.

(** A buffer of at most 576 bytes: nothing is read. *)
Lemma AMD64XstateRead_short xs readLegacy regset hint :
  len xs <= 576 ->
  AMD64XstateRead xs readLegacy regset hint = (regset, Return None).
Proof.
  intros Hlen. unfold AMD64XstateRead, call, AMD64XstateRead_body.
  rewrite bind_when_return; [reflexivity |].
  unfold _XSAVE_HEADER_START, _XSAVE_HEADER_LEN. apply Z.geb_le. lia.
Qed.

(** A longer buffer: the legacy record first, then the header checks, the
    AVX block and the ZMM_Hi256 block, with the panics of the slice
    expressions. *)
Lemma AMD64XstateRead_long xs readLegacy regset hint :
  576 < len xs ->
  AMD64XstateRead xs readLegacy regset hint =
    let st1 :=
      if readLegacy
      then set_PtraceFpRegs (dec_fpregs (take 512 (elems xs))) regset
      else regset in
    if Z.testbit (xcomp_bv_of xs) 63 then (st1, Return None)
    else if negb (Z.testbit (xstate_bv_of xs) 2) then (st1, Return None)
    else
      let st2 := set_AvxState true st1 in
      if cap xs <? 832 then (st2, Panic)
      else
        let st3 :=
          set_YmmSpace (copy_array (YmmSpace st2)
                          (take 256 (drop 576 (backing xs)))) st2 in
        if negb (Z.testbit (xstate_bv_of xs) 6) then (st3, Return None)
        else
          let off :=
            if hint =? 0
            then (if Z.testbit (xcr0_of xs) 9 && (len xs =? 2440)
                  then 896 else 1152)
            else hint in
          let st4 := set_zmmHi256offset off st3 in
          if (off <? 0) || (len xs <? off) then (st4, Panic)
          else
            let st5 := set_Avx512State true st4 in
            if cap xs <? off + 512 then (st5, Panic)
            else
              (set_ZmmSpace
                 (copy_array (ZmmSpace st5)
                    (take 512 (drop (Z.to_nat off) (backing xs)))) st5,
               Return None).
Proof.
  intros Hlen.
  pose proof (len_le_cap xs) as Hcap.
  assert (Hl : (576 < length (elems xs))%nat) by (unfold len in Hlen; lia).
  assert (Hb : (576 < length (backing xs))%nat)
    by (rewrite cap_backing in Hcap; unfold len in Hcap; lia).
  unfold AMD64XstateRead, call, AMD64XstateRead_body.
  unfold _XSAVE_HEADER_START, _XSAVE_HEADER_LEN, _I386_LINUX_XSAVE_XCR0_OFFSET,
         _XSAVE_EXTENDED_REGION_START, len_YmmSpace, len_ZmmSpace.
  rewrite bind_when_false by (rewrite Z.geb_leb; apply Z.leb_gt; lia).
  assert (Hrd : forall B (k : unit -> M B) s,
    bind (when readLegacy
      (bind (must (slice_to xs 512)) (fun rdr =>
         match binary_Read (elems rdr) with
         | inl err => return_ (Some err)
         | inr regs => modify (set_PtraceFpRegs regs)
         end))) k s =
    k tt (if readLegacy
          then set_PtraceFpRegs (dec_fpregs (take 512 (elems xs))) s else s)).
  { intros B k s. destruct readLegacy; [| reflexivity].
    unfold when, slice_to. rewrite slice_range_Some by lia.
    unfold bind at 1 2; simpl.
    rewrite take_drop_backing by (simpl; lia). 
    change (Z.to_nat (512 - 0)) with 512%nat. change (Z.to_nat 0) with 0%nat.
    rewrite drop_0.
    rewrite binary_Read_full by (rewrite length_take; unfold sizeof_fpregs; lia).
    unfold sizeof_fpregs. simpl. rewrite take_take. reflexivity. }
  rewrite Hrd. clear Hrd.
  cbv zeta.
  set (st1 := if readLegacy then _ else regset).
  assert (Hle : (length (elems xs) <= length (backing xs))%nat)
    by (unfold backing; rewrite length_app; lia).
  (* xcr0 *)
  unfold slice_from, slice_to.
  do_slice. do_slice. do_slice.
  do_slice. do_slice. do_slice. do_slice. do_slice.
  rewrite !backing_view.
  change (Z.to_nat 0) with 0%nat; change (Z.to_nat 8) with 8%nat;
  change (Z.to_nat 464) with 464%nat; change (Z.to_nat 512) with 512%nat.
  rewrite ?drop_drop, ?drop_0, ?Nat.add_0_r. simpl (512 + 8)%nat.
  rewrite !take_drop_backing by lia.
  fold (field64 xs 464) (field64 xs 512) (field64 xs 520).
  fold (xcr0_of xs) (xstate_bv_of xs) (xcomp_bv_of xs).
  rewrite land_bit_testbit by lia.
  rewrite hasAVX_testbit, hasZMM_Hi256_testbit.
  unfold resolve_ZMMHi256Offset. rewrite hasPKRU_testbit.
  set (off := if hint =? 0 then _ else hint).
  destruct (Z.testbit (xcomp_bv_of xs) 63); [reflexivity |].
  rewrite bind_when_false by reflexivity.
  destruct (Z.testbit (xstate_bv_of xs) 2); [| reflexivity].
  rewrite bind_when_false by reflexivity.
  cbn [negb].
  do_slice. rewrite bind_modify.
  destruct (cap xs <? 832) eqn:Ecap.
  { apply Z.ltb_lt in Ecap.
    rewrite bind_must_None; [reflexivity |].
    apply slice_range_None. right; right. slice_side.
    rewrite cap_backing in Ecap. lia. }
  apply Z.ltb_ge in Ecap. rewrite cap_backing in Ecap.
  do_slice. rewrite bind_modify.
  rewrite backing_view. change (Z.to_nat 576) with 576%nat.
  change (Z.to_nat (256 - 0)) with 256%nat. rewrite drop_0.
  unfold view; cbn [elems].
  destruct (Z.testbit (xstate_bv_of xs) 6); [| reflexivity].
  rewrite bind_when_false by reflexivity.
  rewrite bind_modify. cbn [negb].
  destruct ((off <? 0) || (len xs <? off)) eqn:Eoff.
  { rewrite bind_must_None; [reflexivity |].
    apply slice_range_None.
    apply orb_true_iff in Eoff as [E | E]; apply Z.ltb_lt in E; lia. }
  apply orb_false_iff in Eoff as [E1 E2].
  apply Z.ltb_ge in E1, E2.
  do_slice. rewrite bind_modify.
  destruct (cap xs <? off + 512) eqn:Ecap2.
  { apply Z.ltb_lt in Ecap2.
    rewrite bind_must_None; [reflexivity |].
    apply slice_range_None. right; right. slice_side.
    rewrite cap_backing in Ecap2. lia. }
  apply Z.ltb_ge in Ecap2. rewrite cap_backing in Ecap2.
  do_slice. rewrite bind_modify.
  rewrite backing_view. change (Z.to_nat (512 - 0)) with 512%nat.
  change (Z.to_nat 0) with 0%nat. rewrite drop_0.
  reflexivity.
Qed.

(** ** [SetXmmRegister], case by case *)

Lemma len_copy_at s pos src : len (copy_at s pos src) = len s.
Proof. unfold len, copy_at; simpl. rewrite length_inserts. reflexivity. Qed.

Lemma set_Xsave_set_Xsave a b st : set_Xsave a (set_Xsave b st) = set_Xsave a st.
Proof. reflexivity. Qed.

(** The three slices of the value, whatever its length. *)
Lemma xmmval_take (value : list byte) :
  (if blen value >? 16 then take 16 value else value) = take 16 value.
Proof.
  unfold blen. destruct (Z.of_nat (length value) >? 16) eqn:E; [reflexivity |].
  rewrite take_ge; [reflexivity |].
  rewrite Z.gtb_ltb in E. apply Z.ltb_ge in E. lia.
Qed.

Lemma rest_drop (value : list byte) :
  drop (length (take 16 value)) value = drop 16 value.
Proof.
  rewrite length_take.
  destruct (Nat.le_gt_cases 16 (length value)) as [H | H].
  - rewrite Nat.min_l by lia. reflexivity.
  - rewrite Nat.min_r by lia. rewrite !drop_ge by lia. reflexivity.
Qed.

Lemma rest_empty (value : list byte) (k : nat) :
  (blen (drop k value) =? 0) = (blen value <=? Z.of_nat k).
Proof.
  unfold blen. rewrite length_drop.
  destruct (Z.of_nat (length value) <=? Z.of_nat k) eqn:E.
  - apply Z.leb_le in E. apply Z.eqb_eq. lia.
  - apply Z.leb_gt in E. apply Z.eqb_neq. lia.
Qed.

(** One block of the function: the bounds check on the target offset, the
    slice expression, the copy. *)
Lemma store_step {B} pos src e (k : unit -> M B) s :
  bind (when (pos >=? len (Xsave s)) (return_ (Some e)))
    (fun _ => bind (must (slice_from (Xsave s) pos))
      (fun _ => bind (modify (fun x => set_Xsave (copy_at (Xsave x) pos src) x)) k)) s
  = if len (Xsave s) <=? pos then (s, Exit (Return (Some e)))
    else if pos <? 0 then (s, Exit Panic)
    else k tt (set_Xsave (copy_at (Xsave s) pos src) s).
Proof.
  rewrite Z.geb_leb.
  destruct (len (Xsave s) <=? pos) eqn:E; [reflexivity |].
  apply Z.leb_gt in E. rewrite bind_when_false by reflexivity.
  pose proof (len_le_cap (Xsave s)) as Hc.
  destruct (pos <? 0) eqn:E0.
  - apply Z.ltb_lt in E0. rewrite bind_must_None; [reflexivity |].
    apply slice_range_None. lia.
  - apply Z.ltb_ge in E0.
    erewrite bind_must_Some by (apply slice_range_Some; lia).
    reflexivity.
Qed.

Lemma SetXmmRegister_cases st n value :
  n < 16 -> blen value <= 64 ->
  SetXmmRegister st n value =
    let xs := Xsave st in
    let xmmpos := int (160 + int (n * 16)) in
    let ymmpos := int (576 + int (n * 16)) in
    let zmmpos := int (zmmHi256offset st + int (n * 32)) in
    if len xs <=? xmmpos then
      (st, Return (Some (Errorf
         ("could not set XMM" +:+ itoa n +:+ ": not in XSAVE area"))))
    else if xmmpos <? 0 then (st, Panic)
    else
      let xs1 := copy_at xs xmmpos (take 16 value) in
      if blen value <=? 16 then (set_Xsave xs1 st, Return None)
      else if len xs <=? ymmpos then
        (set_Xsave xs1 st, Return (Some (Errorf
           ("could not set XMM" +:+ itoa n +:+ ": bytes 16.."
            +:+ itoa (int (16 + blen (take 16 (drop 16 value))))
            +:+ " not in XSAVE area"))))
      else if ymmpos <? 0 then (set_Xsave xs1 st, Panic)
      else
        let xs2 := copy_at xs1 ymmpos (take 16 (drop 16 value)) in
        if blen value <=? 32 then (set_Xsave xs2 st, Return None)
        else if len xs <=? zmmpos then
          (set_Xsave xs2 st, Return (Some (Errorf
             ("could not set XMM" +:+ itoa n +:+ ": bytes 32.."
              +:+ itoa (int (32 + blen (drop 32 value)))
              +:+ " not in XSAVE area"))))
        else if zmmpos <? 0 then (set_Xsave xs2 st, Panic)
        else (set_Xsave (copy_at xs2 zmmpos (drop 32 value)) st, Return None).
Proof.
  intros Hn HL.
  unfold SetXmmRegister, call, SetXmmRegister_body.
  unfold _XSAVE_XMM_REGION_START, _XSAVE_EXTENDED_REGION_START.
  rewrite bind_when_false by (rewrite Z.geb_leb; apply Z.leb_gt; lia).
  rewrite bind_when_false by (rewrite Z.gtb_ltb; apply Z.ltb_ge; lia).
  cbv zeta.
  rewrite !xmmval_take, !rest_drop, !drop_drop.
  change (16 + 16)%nat with 32%nat.
  set (xmmpos := int (160 + int (n * 16))).
  set (ymmpos := int (576 + int (n * 16))).
  rewrite bind_get, store_step.
  destruct (len (Xsave st) <=? xmmpos); [reflexivity |].
  destruct (xmmpos <? 0); [reflexivity |].
  rewrite (rest_empty value 16). change (Z.of_nat 16) with 16.
  destruct (blen value <=? 16); [reflexivity |].
  rewrite bind_when_false by reflexivity.
  rewrite bind_get, store_step.
  cbn [Xsave set_Xsave]. rewrite len_copy_at.
  destruct (len (Xsave st) <=? ymmpos); [reflexivity |].
  destruct (ymmpos <? 0); [reflexivity |].
  rewrite (rest_empty value 32). change (Z.of_nat 32) with 32.
  destruct (blen value <=? 32); [reflexivity |].
  rewrite bind_when_false by reflexivity.
  rewrite bind_get, store_step.
  cbn [Xsave set_Xsave zmmHi256offset]. rewrite !len_copy_at.
  destruct (len (Xsave st) <=? _); [reflexivity |].
  destruct (_ <? 0); reflexivity.
Qed.

(** ** The decoder *)

(** Either case lemma applies to every buffer. *)
Lemma len_cases xs : len xs <= 576 \/ 576 < len xs.
Proof. lia. Qed.

(** C1, as the claim states it, fails: a 520-byte buffer holds a complete
    legacy region, the legacy parse is requested, and the register state
    comes back without it; a 100-byte buffer is too short for the legacy
    region and no error comes back. *)
Lemma C1_counterexample_legacy_not_read :
  ~ AsStated.C1 Inputs.legacy_only /\ ~ AsStated.C1 Inputs.tiny.
Proof.
  unfold AsStated.C1. split.
  - rewrite AMD64XstateRead_short by (vm_compute; discriminate).
    intros (_ & _ & H & _).
    destruct H as [_ H]; [vm_compute; discriminate |].
    apply (f_equal Cwd) in H. vm_compute in H. discriminate.
  - rewrite AMD64XstateRead_short by (vm_compute; discriminate).
    intros (_ & _ & _ & H).
    destruct H as [err H]; [vm_compute; reflexivity |].
    discriminate.
Qed.

(** C1, amended: on every buffer shorter than 576 bytes the decoder
    returns no error and leaves the register state exactly as it received
    it, whether or not the legacy parse is requested: both presence flags
    stay as they were (absent in a fresh state) and the legacy state is
    not populated. *)
Theorem C1_short_buffer_left_untouched xs readLegacy regset hint :
  len xs < 576 ->
  AMD64XstateRead xs readLegacy regset hint = (regset, Return None) /\
  AvxState (fst (AMD64XstateRead xs readLegacy regset hint)) = AvxState regset /\
  Avx512State (fst (AMD64XstateRead xs readLegacy regset hint))
    = Avx512State regset /\
  PtraceFpRegs (fst (AMD64XstateRead xs readLegacy regset hint))
    = PtraceFpRegs regset.
Proof.
  intros H. rewrite AMD64XstateRead_short by lia.
  repeat split; reflexivity.
Qed.

Lemma C1_short_buffer_left_untouched_witness :
  len Inputs.legacy_only < 576 /\
  AMD64XstateRead Inputs.legacy_only true zero_xstate 0
    = (zero_xstate, Return None).
Proof.
  assert (H : len Inputs.legacy_only < 576) by (vm_compute; reflexivity).
  split; [exact H |].
  exact (proj1 (C1_short_buffer_left_untouched
                  Inputs.legacy_only true zero_xstate 0 H)).
Defined.

(** C3, what the code does instead: on a standard-format buffer longer
    than 576 bytes whose header has the AVX bit, the 256-byte AVX block is
    sliced without a bounds check against the buffer.  When the backing
    array ends before byte 832 the slice expression panics; when the
    buffer is shorter than 832 bytes but its backing array is not, the
    block is completed with bytes from beyond the end of the buffer.  The
    512-byte ZMM_Hi256 block is sliced the same way at the recorded
    offset: the call panics when that offset is negative or beyond the
    buffer, or when the backing array ends before the block does. *)
Theorem C3_avx_block_not_bounded_by_buffer xs readLegacy regset hint :
  576 < len xs ->
  Z.testbit (xcomp_bv_of xs) 63 = false ->
  Z.testbit (xstate_bv_of xs) 2 = true ->
  (cap xs < 832 ->
   AMD64XstateRead xs readLegacy regset hint
   = (set_AvxState true
        (if readLegacy
         then set_PtraceFpRegs (dec_fpregs (take 512 (elems xs))) regset
         else regset), Panic)) /\
  (len xs < 832 <= cap xs -> length (YmmSpace regset) = 256%nat ->
   YmmSpace (fst (AMD64XstateRead xs readLegacy regset hint))
   = drop 576 (elems xs) ++ take (Z.to_nat (832 - len xs)) (spare xs)) /\
  (832 <= cap xs -> Z.testbit (xstate_bv_of xs) 6 = true ->
   let off := zmmHi256offset (fst (AMD64XstateRead xs readLegacy regset hint)) in
   off < 0 \/ len xs < off \/ cap xs < off + 512 ->
   snd (AMD64XstateRead xs readLegacy regset hint) = Panic).
Proof.
  intros Hlen Hcomp Havx.
  rewrite AMD64XstateRead_long by assumption.
  cbv zeta. rewrite Hcomp, Havx. cbn [negb].
  split; [| split].
  - intros Hcap. rewrite (proj2 (Z.ltb_lt _ _) Hcap). reflexivity.
  - intros [Hl Hcap] Hy.
    rewrite (proj2 (Z.ltb_ge _ _) Hcap).
    assert (Hsrc : copy_array (YmmSpace regset) (take 256 (drop 576 (backing xs)))
                   = drop 576 (elems xs)
                     ++ take (Z.to_nat (832 - len xs)) (spare xs)).
    { unfold copy_array, backing, cap, len in *.
      rewrite drop_app_le by lia.
      rewrite take_app_ge by (rewrite length_drop; lia).
      rewrite length_drop.
      replace (256 - (length (elems xs) - 576))%nat
        with (Z.to_nat (832 - Z.of_nat (length (elems xs)))) by lia.
      set (src := drop 576 (elems xs) ++ _).
      assert (Hs : length src = length (YmmSpace regset))
        by (unfold src; rewrite length_app, length_drop, length_take; lia).
      pose proof (list_inserts_0_r src (YmmSpace regset) [] Hs) as E.
      rewrite !app_nil_r in E. exact E. }
    repeat match goal with
           | |- context [if ?c then _ else _] => destruct c
           end; exact Hsrc.
  - intros Hcap Hzmm.
    rewrite (proj2 (Z.ltb_ge _ _) Hcap), Hzmm. cbn [negb].
    set (off := if hint =? 0 then _ else hint).
    destruct ((off <? 0) || (len xs <? off)) eqn:E1; [intros _; reflexivity |].
    destruct (cap xs <? off + 512) eqn:E2; [intros _; reflexivity |].
    cbn [fst zmmHi256offset set_ZmmSpace set_Avx512State set_zmmHi256offset].
    apply orb_false_iff in E1 as [E0 E1].
    apply Z.ltb_ge in E0, E1, E2. lia.
Qed.

Lemma C3_avx_block_not_bounded_by_buffer_witness :
  len Inputs.avx_truncated = 600 /\
  snd (AMD64XstateRead Inputs.avx_truncated false zero_xstate 0) = Panic /\
  YmmSpace (fst (AMD64XstateRead Inputs.avx_truncated_spare false zero_xstate 0))
  = replicate 24 x00 ++ replicate 232 xff /\
  len Inputs.avx512_truncated = 1000 /\
  snd (AMD64XstateRead Inputs.avx512_truncated false zero_xstate 0) = Panic.
Proof.
  split; [vm_compute; reflexivity |].
  split; [| split; [| split; [vm_compute; reflexivity |]]].
  - rewrite (proj1 (C3_avx_block_not_bounded_by_buffer
               Inputs.avx_truncated false zero_xstate 0
               ltac:(vm_compute; reflexivity) ltac:(vm_compute; reflexivity)
               ltac:(vm_compute; reflexivity)))
      by (vm_compute; reflexivity).
    reflexivity.
  - rewrite (proj1 (proj2 (C3_avx_block_not_bounded_by_buffer
               Inputs.avx_truncated_spare false zero_xstate 0
               ltac:(vm_compute; reflexivity) ltac:(vm_compute; reflexivity)
               ltac:(vm_compute; reflexivity)))).
    + vm_compute. reflexivity.
    + vm_compute. split; [reflexivity | discriminate].
    + vm_compute. reflexivity.
  - apply (proj2 (proj2 (C3_avx_block_not_bounded_by_buffer
               Inputs.avx512_truncated false zero_xstate 0
               ltac:(vm_compute; reflexivity) ltac:(vm_compute; reflexivity)
               ltac:(vm_compute; reflexivity)))).
    + vm_compute. discriminate.
    + vm_compute. reflexivity.
    + right; left. vm_compute. reflexivity.
Defined.

(** C4: once the decoder has copied the AVX block of a standard-format
    buffer whose header has the AVX and ZMM_Hi256 bits, the offset it
    records on the register state is the caller's hint when that is not
    zero; with a zero hint it is 896 when the per-process bitmap has the
    PKRU bit and the buffer is exactly 2440 bytes long, and 1152 in every
    other case. *)
Theorem C4_offset_resolution xs readLegacy regset hint :
  576 < len xs -> 832 <= cap xs ->
  Z.testbit (xcomp_bv_of xs) 63 = false ->
  Z.testbit (xstate_bv_of xs) 2 = true ->
  Z.testbit (xstate_bv_of xs) 6 = true ->
  let off := zmmHi256offset (fst (AMD64XstateRead xs readLegacy regset hint)) in
  (hint <> 0 -> off = hint) /\
  (hint = 0 -> Z.testbit (xcr0_of xs) 9 = true -> len xs = 2440 -> off = 896) /\
  (hint = 0 -> Z.testbit (xcr0_of xs) 9 = false \/ len xs <> 2440 ->
   off = 1152).
Proof.
  intros Hlen Hcap Hcomp Havx Hzmm off. subst off.
  rewrite AMD64XstateRead_long by assumption.
  cbv zeta. rewrite Hcomp, Havx, Hzmm. cbn [negb].
  rewrite (proj2 (Z.ltb_ge _ _) Hcap).
  set (off := if hint =? 0 then _ else hint).
  assert (Hoff : (hint <> 0 -> off = hint) /\
                 (hint = 0 -> Z.testbit (xcr0_of xs) 9 = true ->
                  len xs = 2440 -> off = 896) /\
                 (hint = 0 ->
                  Z.testbit (xcr0_of xs) 9 = false \/ len xs <> 2440 ->
                  off = 1152)).
  { subst off. repeat split.
    - intros Hh. apply Z.eqb_neq in Hh. rewrite Hh. reflexivity.
    - intros -> Hp ->. rewrite Hp. reflexivity.
    - intros -> [Hp | Hl].
      + rewrite Hp. reflexivity.
      + apply Z.eqb_neq in Hl. rewrite Hl, andb_false_r. reflexivity. }
  destruct ((off <? 0) || (len xs <? off)); [exact Hoff |].
  destruct (cap xs <? off + 512); exact Hoff.
Qed.

Lemma C4_offset_resolution_witness :
  Z.testbit (xcr0_of Inputs.amd_area) 9 = true /\
  len Inputs.amd_area = 2440 /\ len Inputs.intel_area = 2696 /\
  zmmHi256offset (fst (AMD64XstateRead Inputs.amd_area false zero_xstate 0)) = 896 /\
  zmmHi256offset (fst (AMD64XstateRead Inputs.intel_area false zero_xstate 0)) = 1152 /\
  zmmHi256offset (fst (AMD64XstateRead Inputs.amd_area false zero_xstate 1088)) = 1088.
Proof.
  split; [vm_compute; reflexivity |].
  split; [vm_compute; reflexivity |].
  split; [vm_compute; reflexivity |].
  split; [| split].
  - apply (C4_offset_resolution Inputs.amd_area false zero_xstate 0);
      vm_compute; first [reflexivity | discriminate].
  - apply (C4_offset_resolution Inputs.intel_area false zero_xstate 0);
      try (vm_compute; first [reflexivity | discriminate]).
    right. vm_compute. discriminate.
  - apply (C4_offset_resolution Inputs.amd_area false zero_xstate 1088);
      vm_compute; first [reflexivity | discriminate].
Defined.

(** C8: when bit 63 of the compaction flag is set, the decoder returns no
    error and a state that started without AVX still has AVX absent,
    whatever the header bitmap says. *)
Theorem C8_compact_format_leaves_avx_absent xs readLegacy regset hint :
  Z.testbit (xcomp_bv_of xs) 63 = true ->
  AvxState regset = false ->
  snd (AMD64XstateRead xs readLegacy regset hint) = Return None /\
  AvxState (fst (AMD64XstateRead xs readLegacy regset hint)) = false.
Proof.
  intros Hcomp Hfresh.
  destruct (len_cases xs) as [Hs | Hl].
  - rewrite AMD64XstateRead_short by assumption. split; [reflexivity | exact Hfresh].
  - rewrite AMD64XstateRead_long by assumption. cbv zeta. rewrite Hcomp.
    split; [reflexivity |].
    destruct readLegacy; exact Hfresh.
Qed.

Lemma C8_compact_format_leaves_avx_absent_witness :
  Z.testbit (xstate_bv_of Inputs.compact_area) 2 = true /\
  snd (AMD64XstateRead Inputs.compact_area true zero_xstate 0) = Return None /\
  AvxState (fst (AMD64XstateRead Inputs.compact_area true zero_xstate 0)) = false.
Proof.
  split; [vm_compute; reflexivity |].
  apply (C8_compact_format_leaves_avx_absent Inputs.compact_area true zero_xstate 0);
    vm_compute; reflexivity.
Defined.

(** C9: the decoder preserves the invariant that AVX-512 presence implies
    AVX presence, on every buffer and however the call ends. *)
Theorem C9_decode_preserves_avx_invariant xs readLegacy regset hint :
  avx_invariant regset ->
  avx_invariant (fst (AMD64XstateRead xs readLegacy regset hint)).
Proof.
  intros Hinv.
  destruct (len_cases xs) as [Hs | Hl].
  - rewrite AMD64XstateRead_short by assumption. exact Hinv.
  - rewrite AMD64XstateRead_long by assumption. cbv zeta.
    unfold avx_invariant in *.
    repeat match goal with
           | |- context [if ?c then _ else _] => destruct c
           end; cbn; auto.
Qed.

Lemma C9_decode_preserves_avx_invariant_witness :
  avx_invariant zero_xstate /\
  avx_invariant (fst (AMD64XstateRead Inputs.amd_area true zero_xstate 0)) /\
  Avx512State (fst (AMD64XstateRead Inputs.amd_area true zero_xstate 0)) = true.
Proof.
  assert (H : avx_invariant zero_xstate) by (intros H; discriminate H).
  split; [exact H |].
  split; [exact (C9_decode_preserves_avx_invariant
                   Inputs.amd_area true zero_xstate 0 H) |].
  vm_compute. reflexivity.
Defined.

(** ** The encoder *)

(** Positions of the first two slices for an index in range. *)
Lemma xmmpos_id n : - 2 ^ 58 <= n <= 15 -> int (160 + int (n * 16)) = 160 + n * 16.
Proof. intros H. rewrite (int_id (n * 16)) by lia. apply int_id. lia. Qed.

Lemma ymmpos_id n : - 2 ^ 58 <= n <= 15 -> int (576 + int (n * 16)) = 576 + n * 16.
Proof. intros H. rewrite (int_id (n * 16)) by lia. apply int_id. lia. Qed.

Lemma mul32_id n : - 2 ^ 58 <= n <= 15 -> int (n * 32) = n * 32.
Proof. intros H. apply int_id. lia. Qed.

(** Reading back what [copy_at] stored. *)
Lemma lookup_copy_at_in xs pos src (j : nat) :
  0 <= pos -> pos <= Z.of_nat j < pos + blen src -> Z.of_nat j < len xs ->
  elems (copy_at xs pos src) !! j = src !! (j - Z.to_nat pos)%nat.
Proof.
  intros H0 Hj Hl. unfold copy_at, blen, len in *; cbn [elems].
  apply list_lookup_inserts; lia.
Qed.

Lemma lookup_copy_at_out xs pos src (j : nat) :
  0 <= pos -> Z.of_nat j < pos \/ pos + blen src <= Z.of_nat j ->
  elems (copy_at xs pos src) !! j = elems xs !! j.
Proof.
  intros H0 Hj. unfold copy_at, blen in *; cbn [elems].
  destruct Hj as [Hj | Hj].
  - apply list_lookup_inserts_lt. lia.
  - apply list_lookup_inserts_ge. lia.
Qed.

Lemma copy_at_nil xs pos : copy_at xs pos [] = xs.
Proof. destruct xs. reflexivity. Qed.

Lemma spare_copy_at xs pos src : spare (copy_at xs pos src) = spare xs.
Proof. reflexivity. Qed.

(** A range of a list is a given string when its elements are. *)
Lemma array_slice_lookup {A} (l : list A) lo hi (i : nat) :
  0 <= lo -> Z.of_nat i < hi - lo ->
  array_slice l lo hi !! i = l !! (Z.to_nat lo + i)%nat.
Proof.
  intros H0 Hi. unfold array_slice.
  rewrite lookup_take_lt by lia. apply lookup_drop.
Qed.

Lemma array_slice_eq (l v : list byte) lo :
  0 <= lo ->
  (forall i : nat, (i < length v)%nat -> l !! (Z.to_nat lo + i)%nat = v !! i) ->
  array_slice l lo (lo + blen v) = v.
Proof.
  intros H0 Hv. apply list_eq. intros i.
  destruct (Nat.lt_ge_cases i (length v)) as [Hi | Hi].
  - rewrite array_slice_lookup by (unfold blen; lia). apply Hv, Hi.
  - rewrite (lookup_ge_None_2 v) by exact Hi.
    apply lookup_ge_None_2. unfold array_slice, blen.
    rewrite length_take. lia.
Qed.

(** Lengths of the three slices of a value. *)
Lemma blen_take16 (value : list byte) : blen (take 16 value) = Z.min (blen value) 16.
Proof. unfold blen. rewrite length_take. lia. Qed.

Lemma blen_take16_drop16 (value : list byte) :
  16 < blen value -> blen (take 16 (drop 16 value)) = Z.min (blen value) 32 - 16.
Proof. unfold blen. rewrite length_take, length_drop. lia. Qed.


(** The call on an index from 0 to 15 when no target offset is negative
    and none is at or beyond the end of the buffer: all the slices the
    value supplies are stored, in order. *)
Lemma SetXmmRegister_success st n value :
  0 <= n <= 15 -> 1 <= blen value <= 64 ->
  let xs := Xsave st in
  let zmmpos := int (zmmHi256offset st + n * 32) in
  160 + n * 16 < len xs ->
  (16 < blen value -> 576 + n * 16 < len xs) ->
  (32 < blen value -> 0 <= zmmpos < len xs) ->
  SetXmmRegister st n value =
    (set_Xsave
       (copy_at (copy_at (copy_at xs (160 + n * 16) (take 16 value))
                   (576 + n * 16) (take 16 (drop 16 value)))
          zmmpos (drop 32 value)) st,
     Return None).
Proof.
  intros Hn HL xs zmmpos H1 H2 H3.
  rewrite SetXmmRegister_cases by lia. cbv zeta.
  rewrite xmmpos_id, ymmpos_id, mul32_id by lia.
  fold xs zmmpos.
  rewrite (proj2 (Z.leb_gt _ _)) by lia.
  rewrite (proj2 (Z.ltb_ge _ _)) by lia.
  destruct (blen value <=? 16) eqn:E16.
  { apply Z.leb_le in E16.
    rewrite (drop_ge value 16), (drop_ge value 32) by (unfold blen in E16; lia).
    rewrite take_nil, !copy_at_nil. reflexivity. }
  apply Z.leb_gt in E16.
  rewrite (proj2 (Z.leb_gt _ _)) by lia.
  rewrite (proj2 (Z.ltb_ge _ _)) by lia.
  destruct (blen value <=? 32) eqn:E32.
  { apply Z.leb_le in E32.
    rewrite (drop_ge value 32) by (unfold blen in E32; lia).
    rewrite copy_at_nil. reflexivity. }
  apply Z.leb_gt in E32.
  rewrite (proj2 (Z.leb_gt _ _)) by lia.
  rewrite (proj2 (Z.ltb_ge _ _)) by lia.
  reflexivity.
Qed.

(** Side conditions about lengths of slices of the value. *)
Ltac len_arith :=
  rewrite ?len_copy_at; unfold blen, len in *;
  rewrite ?length_take, ?length_drop in *; lia.

(** Reads a byte of a buffer that went through several [copy_at]. *)
Ltac read_back :=
  repeat first
    [ rewrite lookup_copy_at_in by len_arith
    | rewrite lookup_copy_at_out by len_arith ].




(** C5 as stated does not hold: a buffer of 1260 bytes with the vendor
    offset 1152 holds the first two slices of [XMM3] (they end at 224 and
    at 640) and is too short for the third (1248 to 1280).  The call with
    a 64-byte value returns no error: the bounds check compares only the
    start 1248 of the third slice with the length, and [copy] stores the
    12 bytes that fit. *)
Lemma C5_counterexample_third_slice_truncated :
  ~ AsStated.C5 Inputs.third_slice_cut_state 3 Inputs.value64 /\
  snd (SetXmmRegister Inputs.third_slice_cut_state 3 Inputs.value64)
  = Return None /\
  array_slice
    (elems (Xsave (fst (SetXmmRegister Inputs.third_slice_cut_state 3
                          Inputs.value64)))) 1248 1260
  = replicate 12 x33.
Proof.
  split; [| split].
  - intros (_ & _ & H).
    destruct H as ((msg & E) & _).
    + lia.
    + vm_compute. reflexivity.
    + vm_compute. discriminate.
    + vm_compute. reflexivity.
    + vm_compute in E. discriminate.
  - vm_compute. reflexivity.
  - vm_compute. reflexivity.
Qed.

(** C5, amended: an index of 16 or more is refused with an error and so
    is a value of more than 64 bytes, the buffer untouched in both cases;
    a 64-byte value for an index from 0 to 15, on a buffer that holds the
    first two slices and ends at or before the target offset of the
    third, is refused with an error after the first two slices have been
    stored in the buffer, which is not restored. *)
Theorem C5_setRegister_failures st n value :
  (16 <= n ->
   SetXmmRegister st n value =
     (st, Return (Some (Errorf
        ("setting register XMM" +:+ itoa n +:+ " not supported"))))) /\
  (64 < blen value ->
   exists msg, SetXmmRegister st n value = (st, Return (Some (Errorf msg)))) /\
  (0 <= n <= 15 -> blen value = 64 ->
   let xs := Xsave st in
   let xmmpos := _XSAVE_XMM_REGION_START + n * 16 in
   let ymmpos := _XSAVE_EXTENDED_REGION_START + n * 16 in
   let zmmpos := int (zmmHi256offset st + n * 32) in
   ymmpos + 16 <= len xs -> len xs <= zmmpos ->
   exists msg st',
     SetXmmRegister st n value = (st', Return (Some (Errorf msg))) /\
     length (elems (Xsave st')) = length (elems xs) /\
     array_slice (elems (Xsave st')) xmmpos (xmmpos + 16) = take 16 value /\
     array_slice (elems (Xsave st')) ymmpos (ymmpos + 16)
     = take 16 (drop 16 value) /\
     (forall j : nat,
        ~ (xmmpos <= Z.of_nat j < xmmpos + 16) ->
        ~ (ymmpos <= Z.of_nat j < ymmpos + 16) ->
        elems (Xsave st') !! j = elems xs !! j)).
Proof.
  split; [| split].
  - intros Hn. unfold SetXmmRegister, call, SetXmmRegister_body.
    rewrite bind_when_return; [reflexivity |].
    rewrite Z.geb_leb. apply Z.leb_le. exact Hn.
  - intros HL. unfold SetXmmRegister, call, SetXmmRegister_body.
    destruct (n >=? 16) eqn:En.
    + rewrite bind_when_return by reflexivity. eexists. reflexivity.
    + rewrite bind_when_false by reflexivity.
      rewrite bind_when_return; [eexists; reflexivity |].
      rewrite Z.gtb_ltb. apply Z.ltb_lt. exact HL.
  - intros Hn HL xs xmmpos ymmpos zmmpos F2 F3.
    unfold _XSAVE_XMM_REGION_START, _XSAVE_EXTENDED_REGION_START in *.
    eexists. eexists. split.
    { rewrite SetXmmRegister_cases by lia. cbv zeta.
      rewrite xmmpos_id, ymmpos_id, mul32_id by lia.
      fold xs xmmpos ymmpos zmmpos.
      rewrite (proj2 (Z.leb_gt _ _)) by (subst xmmpos ymmpos; lia).
      rewrite (proj2 (Z.ltb_ge _ _)) by (subst xmmpos; lia).
      rewrite (proj2 (Z.leb_gt _ _)) by lia.
      rewrite (proj2 (Z.leb_gt _ _)) by lia.
      rewrite (proj2 (Z.ltb_ge _ _)) by (subst ymmpos; lia).
      rewrite (proj2 (Z.leb_gt _ _)) by lia.
      rewrite (proj2 (Z.leb_le _ _)) by lia.
      reflexivity. }
    cbn [Xsave set_Xsave]. subst xmmpos ymmpos.
    split; [unfold copy_at; cbn [elems]; rewrite !length_inserts; reflexivity |].
    split; [| split].
    + replace (160 + n * 16 + 16) with (160 + n * 16 + blen (take 16 value))
        by (rewrite blen_take16; lia).
      apply array_slice_eq; [lia |].
      intros i Hi. read_back. f_equal. lia.
    + replace (576 + n * 16 + 16)
        with (576 + n * 16 + blen (take 16 (drop 16 value)))
        by (rewrite blen_take16_drop16; lia).
      apply array_slice_eq; [lia |].
      intros i Hi. read_back. f_equal. lia.
    + intros j J1 J2. read_back. reflexivity.
Qed.

Lemma C5_setRegister_failures_witness :
  snd (SetXmmRegister Inputs.intel_state 16 Inputs.value16)
  = Return (Some (Errorf "setting register XMM16 not supported")) /\
  (exists msg,
     snd (SetXmmRegister Inputs.intel_state 3 (Inputs.value64 ++ [x00]))
     = Return (Some (Errorf msg))) /\
  (exists msg st',
     SetXmmRegister Inputs.avx_only_state 3 Inputs.value64
     = (st', Return (Some (Errorf msg))) /\
     array_slice (elems (Xsave st')) 208 224 = replicate 16 x11 /\
     array_slice (elems (Xsave st')) 624 640 = replicate 16 x22).
Proof.
  split; [| split].
  - rewrite (proj1 (C5_setRegister_failures Inputs.intel_state 16 Inputs.value16))
      by lia.
    reflexivity.
  - destruct (proj1 (proj2 (C5_setRegister_failures
                              Inputs.intel_state 3 (Inputs.value64 ++ [x00]))))
      as [msg E]; [vm_compute; reflexivity |].
    exists msg. rewrite E. reflexivity.
  - destruct (proj2 (proj2 (C5_setRegister_failures
                              Inputs.avx_only_state 3 Inputs.value64)))
      as (msg & st' & E & _ & S1 & S2 & _).
    + lia.
    + vm_compute. reflexivity.
    + vm_compute. discriminate.
    + vm_compute. discriminate.
    + exists msg, st'. split; [exact E |]. split; [exact S1 | exact S2].
Defined.

(** C10, what the code does instead: the index check is [n >= 16] alone.
    For an index from -10 to -1 whose computed offset is inside the buffer
    the call succeeds and stores the value below the SSE region, at
    [160 + 16 n]; for an index from -2^58 to -11 the computed offset is
    negative and the slice expression panics. *)
Theorem C10_negative_index_not_rejected st n value :
  1 <= blen value <= 16 ->
  (-10 <= n <= -1 -> 160 + n * 16 < len (Xsave st) ->
   SetXmmRegister st n value
   = (set_Xsave (copy_at (Xsave st) (160 + n * 16) value) st, Return None)) /\
  (- 2 ^ 58 <= n <= -11 -> SetXmmRegister st n value = (st, Panic)).
Proof.
  intros HL. split.
  - intros Hn Hlen.
    rewrite SetXmmRegister_cases by lia. cbv zeta.
    rewrite xmmpos_id by lia.
    rewrite (proj2 (Z.leb_gt _ _)) by lia.
    rewrite (proj2 (Z.ltb_ge _ _)) by lia.
    rewrite (proj2 (Z.leb_le _ _)) by lia.
    rewrite take_ge by (unfold blen in HL; lia).
    reflexivity.
  - intros Hn.
    rewrite SetXmmRegister_cases by lia. cbv zeta.
    rewrite xmmpos_id by lia.
    pose proof (Nat2Z.is_nonneg (length (elems (Xsave st)))) as Hpos.
    rewrite (proj2 (Z.leb_gt _ _)) by (unfold len; lia).
    rewrite (proj2 (Z.ltb_lt _ _)) by lia.
    reflexivity.
Qed.

Lemma C10_negative_index_not_rejected_witness :
  let st := Inputs.state_on (Inputs.buffer 600 []) in
  snd (SetXmmRegister st (-1) Inputs.value16) = Return None /\
  array_slice (elems (Xsave (fst (SetXmmRegister st (-1) Inputs.value16)))) 144 160
  = Inputs.value16 /\
  snd (SetXmmRegister st (-11) Inputs.value16) = Panic.
Proof.
  intros st.
  assert (HL : 1 <= blen Inputs.value16 <= 16) by (vm_compute; split; discriminate).
  destruct (C10_negative_index_not_rejected st (-1) Inputs.value16 HL) as [H1 _].
  destruct (C10_negative_index_not_rejected st (-11) Inputs.value16 HL) as [_ H2].
  rewrite H1 by (vm_compute; first [reflexivity | split; discriminate]).
  rewrite H2 by lia.
  split; [reflexivity |]. split; [vm_compute; reflexivity | reflexivity].
Defined.

(** ** Little-endian packing *)

Lemma length_le_bytes k v : length (le_bytes k v) = k.
Proof. revert v. induction k as [| k IH]; intros v; simpl; [| rewrite IH]; reflexivity. Qed.

Lemma le_bytes_app a b v :
  le_bytes (a + b) v = le_bytes a v ++ le_bytes b (Z.shiftr v (8 * Z.of_nat a)).
Proof.
  revert v. induction a as [| a IH]; intros v.
  - simpl. rewrite Z.shiftr_0_r. reflexivity.
  - cbn [Nat.add le_bytes app]. rewrite IH. f_equal. f_equal.
    rewrite Z.shiftr_shiftr by lia. do 2 f_equal. lia.
Qed.

Lemma byte_of_Z_mod v m : (256 | m) -> byte_of_Z (v mod m) = byte_of_Z v.
Proof.
  intros Hd. unfold byte_of_Z.
  rewrite Z.mod_mod_divide by assumption. reflexivity.
Qed.

(** Only the low [8 k] bits of a value reach its first [k] bytes. *)
Lemma le_bytes_mod k v : le_bytes k (v mod 2 ^ (8 * Z.of_nat k)) = le_bytes k v.
Proof.
  revert v. induction k as [| k IH]; intros v; [reflexivity |].
  cbn [le_bytes].
  replace (8 * Z.of_nat (S k)) with (8 + 8 * Z.of_nat k) by lia.
  rewrite Z.pow_add_r by lia.
  f_equal.
  - apply byte_of_Z_mod.
    exists (2 ^ (8 * Z.of_nat k)). lia.
  - rewrite <- (IH (Z.shiftr v 8)). f_equal.
    rewrite !Z.shiftr_div_pow2 by lia.
    rewrite Z.rem_mul_r by lia.
    rewrite (Z.add_comm (v mod 2 ^ 8)), Z.mul_comm, Z.div_add_l by lia.
    rewrite (Z.div_small (v mod 2 ^ 8)) by (apply Z.mod_pos_bound; lia).
    lia.
Qed.

(** The mantissa word the code builds is the two storage words side by
    side. *)
Lemma pack_mantissa lo hi :
  in_uint 32 lo -> in_uint 32 hi ->
  Z.lor (uint64 (Z.shiftl (uint64 hi) 32)) (uint64 lo) = lo + 2 ^ 32 * hi.
Proof.
  unfold in_uint, uint64. intros Hlo Hhi.
  rewrite (Z.mod_small hi), (Z.mod_small lo) by lia.
  rewrite Z.shiftl_mul_pow2 by lia.
  rewrite (Z.mod_small (hi * 2 ^ 32)) by lia.
  rewrite <- Z.lxor_lor, <- Z.add_nocarry_lxor; [lia | |].
  all: apply Z.bits_inj'; intros m Hm; rewrite Z.land_spec, Z.bits_0;
    destruct (Z.lt_ge_cases m 32) as [Hlt | Hge];
    [ rewrite Z.mul_pow2_bits_low by lia; reflexivity
    | rewrite <- (Z.mod_small lo (2 ^ 32)) by lia;
      rewrite Z.mod_pow2_bits_high by lia; apply andb_false_r ].
Qed.

Lemma st_bytes_split lo hi ex :
  in_uint 32 lo -> in_uint 32 hi ->
  le_bytes 8 (Z.lor (uint64 (Z.shiftl (uint64 hi) 32)) (uint64 lo))
    ++ le_bytes 2 (uint16 ex)
  = le_bytes 4 lo ++ le_bytes 4 hi ++ le_bytes 2 ex.
Proof.
  intros Hlo Hhi. rewrite pack_mantissa by assumption.
  unfold in_uint in *.
  change 8%nat with (4 + 4)%nat. rewrite le_bytes_app.
  rewrite <- app_assoc. f_equal; [| f_equal].
  - rewrite <- (le_bytes_mod 4 (lo + 2 ^ 32 * hi)).
    change (8 * Z.of_nat 4) with 32.
    rewrite (Z.mul_comm (2 ^ 32)), Z_mod_plus_full.
    rewrite Z.mod_small by lia. reflexivity.
  - change (8 * Z.of_nat 4) with 32.
    rewrite Z.shiftr_div_pow2 by lia.
    rewrite (Z.mul_comm (2 ^ 32)), Z_div_plus_full by lia.
    rewrite Z.div_small by lia. reflexivity.
  - unfold uint16. apply (le_bytes_mod 2 ex).
Qed.

(** ** [Decode]: the loops *)

(** The first loop, entered at [i = 4 k] with enough fuel for the [m]
    iterations that remain, emits the rows [k], ..., [7] and exits on its
    condition. *)
Lemma Decode_st_loop_unrolled x m :
  forall (k fuel : nat) regs,
    (k + m = 8)%nat -> (m <= fuel)%nat ->
    Decode_st_loop fuel x (Z.of_nat (4 * k)) regs
    = regs ++ map (Unrolled.st_row x) (seq k m).
Proof.
  induction m as [| m IH]; intros k fuel regs Hk Hf.
  - destruct fuel; simpl; [rewrite app_nil_r; reflexivity |].
    unfold len_StSpace.
    rewrite (proj2 (Z.ltb_ge _ _)) by lia.
    rewrite app_nil_r. reflexivity.
  - destruct fuel as [| fuel]; [lia |].
    cbn [Decode_st_loop]. unfold len_StSpace.
    rewrite (proj2 (Z.ltb_lt _ _)) by lia.
    cbv zeta. unfold AppendBytesRegister.
    rewrite int_id by lia.
    replace (Z.of_nat (4 * k) + 4) with (Z.of_nat (4 * S k)) by lia.
    rewrite IH by lia.
    rewrite <- app_assoc. cbn [seq map app]. f_equal. f_equal.
    unfold Unrolled.st_row.
    replace (Z.to_nat (Z.of_nat (4 * k) + 1)) with (4 * k + 1)%nat by lia.
    replace (Z.to_nat (Z.of_nat (4 * k) + 2)) with (4 * k + 2)%nat by lia.
    rewrite Nat2Z.id.
    replace (Z.of_nat (4 * k) ÷ 4) with (Z.of_nat k); [reflexivity |].
    rewrite Nat2Z.inj_mul, Z.mul_comm, Z.quot_mul by lia. reflexivity.
Qed.

(** The second loop, entered at [i = 16 k]. *)
Lemma Decode_xmm_loop_unrolled x m :
  forall (k fuel : nat) regs,
    (k + m = 16)%nat -> (m <= fuel)%nat ->
    Decode_xmm_loop fuel x (Z.of_nat (16 * k)) regs
    = regs ++ flat_map (Spec.vector_rows x) (seq k m).
Proof.
  induction m as [| m IH]; intros k fuel regs Hk Hf.
  - destruct fuel; simpl; [rewrite app_nil_r; reflexivity |].
    unfold len_XmmSpace.
    rewrite (proj2 (Z.ltb_ge _ _)) by lia.
    rewrite app_nil_r. reflexivity.
  - destruct fuel as [| fuel]; [lia |].
    cbn [Decode_xmm_loop]. unfold len_XmmSpace.
    rewrite (proj2 (Z.ltb_lt _ _)) by lia.
    cbv zeta. unfold AppendBytesRegister.
    rewrite int_id by lia.
    replace (Z.of_nat (16 * k) + 16) with (Z.of_nat (16 * S k)) by lia.
    replace (Z.of_nat (16 * k) ÷ 16) with (Z.of_nat k)
      by (rewrite Nat2Z.inj_mul, Z.mul_comm, Z.quot_mul by lia; reflexivity).
    rewrite IH by lia.
    cbn [seq flat_map]. unfold Spec.vector_rows at 2.
    unfold array_slice.
    replace (Z.to_nat (Z.of_nat (16 * S k) - Z.of_nat (16 * k))) with 16%nat by lia.
    replace (Z.to_nat ((Z.of_nat k + 1) * 32 - Z.of_nat k * 32)) with 32%nat by lia.
    replace (Z.to_nat (Z.of_nat k * 32)) with (32 * k)%nat by lia.
    rewrite Nat2Z.id.
    destruct (AvxState x), (Avx512State x); cbn [andb app];
      rewrite <- ?app_assoc; reflexivity.
Qed.

(** From the start, with at least as much fuel as iterations. *)
Lemma Decode_st_loop_all x fuel regs :
  (8 <= fuel)%nat ->
  Decode_st_loop fuel x 0 regs = regs ++ map (Unrolled.st_row x) (seq 0 8).
Proof. intros Hf. exact (Decode_st_loop_unrolled x 8 0 fuel regs eq_refl Hf). Qed.

Lemma Decode_xmm_loop_all x fuel regs :
  (16 <= fuel)%nat ->
  Decode_xmm_loop fuel x 0 regs
  = regs ++ flat_map (Spec.vector_rows x) (seq 0 16).
Proof. intros Hf. exact (Decode_xmm_loop_unrolled x 16 0 fuel regs eq_refl Hf). Qed.

(** More fuel changes nothing: both loops have reached their exit. *)
Lemma Decode_st_loop_fuel x fuel regs :
  (8 <= fuel)%nat ->
  Decode_st_loop fuel x 0 regs = Decode_st_loop 8 x 0 regs.
Proof.
  intros Hf. rewrite !Decode_st_loop_all by lia. reflexivity.
Qed.

Lemma Decode_xmm_loop_fuel x fuel regs :
  (16 <= fuel)%nat ->
  Decode_xmm_loop fuel x 0 regs = Decode_xmm_loop 16 x 0 regs.
Proof.
  intros Hf. rewrite !Decode_xmm_loop_all by lia. reflexivity.
Qed.

Lemma Decode_unrolled x : Decode x = Unrolled.rows x.
Proof.
  unfold Decode. cbv zeta.
  rewrite Decode_xmm_loop_all by (unfold len_XmmSpace; lia).
  unfold AppendUint64Register.
  rewrite Decode_st_loop_all by (unfold len_StSpace; lia).
  unfold Unrolled.rows, Unrolled.x87_rows, Unrolled.mxcsr_rows.
  cbn [app]. rewrite <- !app_assoc. reflexivity.
Qed.

(** ** [Decode]: values of the Go types *)

Lemma uint64_id bits v : bits <= 64 -> in_uint bits v -> uint64 v = v.
Proof.
  unfold in_uint, uint64. intros Hb Hv.
  assert (2 ^ bits <= 2 ^ 64) by (apply Z.pow_le_mono_r; lia).
  apply Z.mod_small. lia.
Qed.

Lemma le_uint_bound bs : 0 <= le_uint bs < 2 ^ (8 * Z.of_nat (length bs)).
Proof.
  induction bs as [| b bs IH]; [simpl; lia |].
  cbn [le_uint length].
  replace (8 * Z.of_nat (S (length bs))) with (8 + 8 * Z.of_nat (length bs)) by lia.
  rewrite Z.pow_add_r by lia.
  assert (0 <= byte_to_Z b < 2 ^ 8).
  { unfold byte_to_Z. pose proof (Byte.to_N_bounded b) as Hb.
    change (2 ^ 8) with 256. lia. }
  nia.
Qed.

Lemma in_uint_le_uint (k : nat) bs :
  (length bs <= k)%nat -> in_uint (8 * Z.of_nat k) (le_uint bs).
Proof.
  intros Hk. unfold in_uint. pose proof (le_uint_bound bs) as Hb.
  assert (2 ^ (8 * Z.of_nat (length bs)) <= 2 ^ (8 * Z.of_nat k))
    by (apply Z.pow_le_mono_r; lia).
  lia.
Qed.

Lemma dec_uint_typed (k : nat) bs : in_uint (8 * Z.of_nat k) (fst (dec_uint k bs)).
Proof.
  unfold dec_uint; cbn [fst]. apply in_uint_le_uint.
  rewrite length_take. lia.
Qed.

Lemma dec_uints_spec (k n : nat) :
  forall bs,
    snd (dec_uints k n bs) = drop (k * n) bs /\
    length (fst (dec_uints k n bs)) = n /\
    Forall (in_uint (8 * Z.of_nat k)) (fst (dec_uints k n bs)).
Proof.
  induction n as [| n IH]; intros bs.
  - cbn. rewrite Nat.mul_0_r. repeat split. constructor.
  - cbn [dec_uints]. unfold dec_uint. cbv beta iota.
    destruct (IH (drop k bs)) as (H1 & H2 & H3).
    destruct (dec_uints k n (drop k bs)) as [vs rest] eqn:E.
    cbn [fst snd] in *. split; [| split].
    + rewrite H1, drop_drop. f_equal. lia.
    + cbn [length]. f_equal. exact H2.
    + constructor; [| exact H3].
      apply in_uint_le_uint. rewrite length_take. lia.
Qed.

(** The legacy record read from 512 bytes. *)
Lemma dec_fpregs_XmmSpace bs : XmmSpace (dec_fpregs bs) = take 256 (drop 160 bs).
Proof.
  unfold dec_fpregs, dec_uint, dec_bytes.
  destruct (dec_uints 4 32 _) as [st rest] eqn:E1.
  pose proof (dec_uints_spec 4 32
    (drop 4 (drop 4 (drop 8 (drop 8 (drop 2 (drop 2 (drop 2 (drop 2 bs)))))))))
    as (Hrest & _).
  rewrite E1 in Hrest. cbn [snd] in Hrest.
  destruct (dec_uints 4 24 _) as [pad rest2].
  cbn [XmmSpace]. rewrite Hrest, !drop_drop. reflexivity.
Qed.

Lemma dec_fpregs_typed bs :
  length bs = 512%nat -> wf_fpregs (dec_fpregs bs) /\ typed_fpregs (dec_fpregs bs).
Proof.
  intros Hlen.
  pose proof (dec_fpregs_XmmSpace bs) as HX.
  unfold dec_fpregs, dec_uint, dec_bytes in *.
  destruct (dec_uints 4 32 _) as [st rest] eqn:E1.
  pose proof (dec_uints_spec 4 32
    (drop 4 (drop 4 (drop 8 (drop 8 (drop 2 (drop 2 (drop 2 (drop 2 bs)))))))))
    as (Hrest & Hl1 & Hf1).
  rewrite E1 in Hrest, Hl1, Hf1. cbn [fst snd] in *.
  destruct (dec_uints 4 24 _) as [pad rest2] eqn:E2.
  pose proof (dec_uints_spec 4 24 (drop 256 rest)) as (_ & Hl2 & Hf2).
  rewrite E2 in Hl2, Hf2. cbn [fst] in *.
  cbn [XmmSpace] in HX.
  unfold wf_fpregs, typed_fpregs; cbn.
  repeat match goal with |- _ /\ _ => split end;
    try assumption;
    try (apply (in_uint_le_uint 2); rewrite length_take; lia);
    try (apply (in_uint_le_uint 4); rewrite length_take; lia);
    try (apply (in_uint_le_uint 8); rewrite length_take; lia).
  rewrite HX, length_take, length_drop. lia.
Qed.

Lemma length_copy_array dst src : length (copy_array dst src) = length dst.
Proof. apply length_inserts. Qed.

(** The decoder keeps the state a value of its Go type. *)
Lemma AMD64XstateRead_typed xs readLegacy regset hint :
  typed_xstate regset ->
  typed_xstate (fst (AMD64XstateRead xs readLegacy regset hint)).
Proof.
  intros Ht.
  destruct (len_cases xs) as [Hs | Hl].
  { rewrite AMD64XstateRead_short by assumption. exact Ht. }
  rewrite AMD64XstateRead_long by assumption. cbv zeta.
  assert (Ht1 : typed_xstate
                  (if readLegacy
                   then set_PtraceFpRegs (dec_fpregs (take 512 (elems xs))) regset
                   else regset)).
  { destruct readLegacy; [| exact Ht].
    destruct Ht as ((_ & Hy & Hz) & _).
    destruct (dec_fpregs_typed (take 512 (elems xs))) as [Hw Hr].
    { rewrite length_take. unfold len in Hl. lia. }
    split; [split; [exact Hw | split; assumption] | exact Hr]. }
  set (st1 := if readLegacy then _ else regset) in *.
  destruct Ht1 as ((Hw & Hy & Hz) & Hr).
  repeat match goal with
         | |- context [if ?c then _ else _] => destruct c
         end;
    (split; [split; [exact Hw | split] | exact Hr]);
    cbn [YmmSpace ZmmSpace set_AvxState set_YmmSpace set_zmmHi256offset
         set_Avx512State set_ZmmSpace fst];
    rewrite ?length_copy_array; assumption.
Qed.

(** ** The projection *)

(** On a value of the Go type the conversions of [Decode] are the
    identity and each mantissa is its two storage words. *)
Lemma Unrolled_rows_project x : typed_xstate x -> Unrolled.rows x = Spec.project x.
Proof.
  intros ((Hst & _ & _) & Hr & Hs & Ht & Hf & _ & _ & Hm & Hk & Hall & _).
  destruct Hst as (HstL & _).
  unfold Unrolled.rows, Spec.project. f_equal; [| f_equal; [| f_equal]].
  - unfold Unrolled.x87_rows, Spec.x87_rows. cbv zeta.
    rewrite (uint64_id 16 (Cwd _)), (uint64_id 16 (Swd _)),
            (uint64_id 16 (Ftw _)), (uint64_id 16 (Fop _)) by (assumption || lia).
    reflexivity.
  - apply map_ext_in. intros k Hin. apply in_seq in Hin.
    unfold Unrolled.st_row, Spec.st_row. cbv zeta. f_equal. f_equal.
    apply st_bytes_split;
      apply Forall_lookup_total_1; (assumption || lia).
  - unfold Unrolled.mxcsr_rows, Spec.mxcsr_rows. cbv zeta.
    rewrite (uint64_id 32 (Mxcsr _)), (uint64_id 32 (MxcrMask _))
      by (assumption || lia).
    reflexivity.
Qed.

(** The names depend on the two presence flags only, and are distinct. *)
Lemma Unrolled_names_NoDup x : NoDup (map Name (Unrolled.rows x)).
Proof.
  unfold Unrolled.rows, Spec.vector_rows.
  destruct (AvxState x), (Avx512State x);
    apply (bool_decide_unpack _); vm_compute; exact I.
Qed.

Lemma Unrolled_widths x :
  wf_xstate x -> map reg_width (Unrolled.rows x) = Spec.widths x.
Proof.
  intros ((_ & Hx & _) & Hy & Hz).
  unfold Unrolled.rows, Spec.widths. rewrite !map_app.
  apply (f_equal2 app); [reflexivity |].
  apply (f_equal2 app); [| apply (f_equal2 app); [reflexivity |]].
  - cbn [seq map]. unfold reg_width, Unrolled.st_row; cbn [Reg].
    rewrite !length_app, !length_le_bytes. reflexivity.
  - rewrite !flat_map_concat_map, concat_map, map_map. f_equal.
    apply map_ext_in. intros n Hin. apply in_seq in Hin.
    unfold Spec.vector_rows. rewrite !map_app.
    apply (f_equal2 app); [| apply (f_equal2 app)].
    + cbn [map]. unfold reg_width; cbn [Reg].
      rewrite length_take, length_drop. f_equal. lia.
    + destruct (AvxState x); [| reflexivity].
      cbn [map]. unfold reg_width; cbn [Reg].
      rewrite length_take, length_drop. f_equal. lia.
    + destruct (AvxState x && Avx512State x); [| reflexivity].
      cbn [map]. unfold reg_width; cbn [Reg].
      rewrite length_take, length_drop. f_equal. lia.
Qed.

(** Without AVX no name begins with YMM or ZMM; without AVX-512 none
    begins with ZMM. *)
Lemma Unrolled_names_gated x :
  (AvxState x = false ->
   Forall (fun s => String.prefix "YMM" s = false /\ String.prefix "ZMM" s = false)
     (map Name (Unrolled.rows x))) /\
  (Avx512State x = false ->
   Forall (fun s => String.prefix "ZMM" s = false) (map Name (Unrolled.rows x))).
Proof.
  unfold Unrolled.rows, Spec.vector_rows.
  split; intros ->.
  - destruct (Avx512State x);
      apply (bool_decide_unpack _); vm_compute; exact I.
  - destruct (AvxState x);
      apply (bool_decide_unpack _); vm_compute; exact I.
Qed.

(** C6: on every register state of the Go type, [Decode] emits exactly
    the rows of the specification, in its order: the control, status, tag
    and opcode words, the instruction and data pointers, as 64-bit values;
    [ST(0)] to [ST(7)], 10 bytes each, the two 32-bit storage words low
    word first and then the 16-bit exponent word, little-endian; [MXCSR]
    and its mask; then per index 0 to 15 a 16-byte [XMMn], a 16-byte
    [YMMn] only when AVX is present and a 32-byte [ZMMn] only when AVX-512
    is present.  No name occurs twice. *)
Theorem C6_Decode_order x :
  typed_xstate x ->
  Decode x = Spec.project x /\
  map reg_width (Decode x) = Spec.widths x /\
  NoDup (map Name (Decode x)) /\
  (AvxState x = false ->
   Forall (fun s => String.prefix "YMM" s = false /\ String.prefix "ZMM" s = false)
     (map Name (Decode x))) /\
  (Avx512State x = false ->
   Forall (fun s => String.prefix "ZMM" s = false) (map Name (Decode x))).
Proof.
  intros Ht. rewrite Decode_unrolled.
  split; [apply Unrolled_rows_project, Ht |].
  split; [apply Unrolled_widths, Ht |].
  split; [apply Unrolled_names_NoDup |].
  apply Unrolled_names_gated.
Qed.

Lemma zero_xstate_typed : typed_xstate zero_xstate.
Proof.
  split; [repeat split |].
  unfold typed_fpregs, in_uint, zero_xstate, zero_fpregs;
    cbn [PtraceFpRegs Cwd Swd Ftw Fop Rip Rdp Mxcsr MxcrMask StSpace Padding].
  repeat match goal with |- _ /\ _ => split end;
    try lia; apply Forall_replicate; lia.
Qed.

Lemma set_Xsave_typed xs st : typed_xstate st -> typed_xstate (set_Xsave xs st).
Proof. intros H. exact H. Qed.

Lemma C6_Decode_order_witness :
  typed_xstate Inputs.intel_state /\
  Avx512State Inputs.intel_state = true /\
  Decode Inputs.intel_state = Spec.project Inputs.intel_state /\
  map (fun r => (Name r, reg_width r)) (take 22 (Decode Inputs.intel_state))
  = [ ("CW", 8); ("SW", 8); ("TW", 8); ("FOP", 8); ("FIP", 8); ("FDP", 8);
      ("ST(0)", 10); ("ST(1)", 10); ("ST(2)", 10); ("ST(3)", 10);
      ("ST(4)", 10); ("ST(5)", 10); ("ST(6)", 10); ("ST(7)", 10);
      ("MXCSR", 8); ("MXCSR_MASK", 8);
      ("XMM0", 16); ("YMM0", 16); ("ZMM0", 32);
      ("XMM1", 16); ("YMM1", 16); ("ZMM1", 32) ]%nat /\
  length (Decode Inputs.intel_state) = 64%nat.
Proof.
  assert (Ht : typed_xstate Inputs.intel_state).
  { apply AMD64XstateRead_typed, set_Xsave_typed, zero_xstate_typed. }
  split; [exact Ht |].
  split; [vm_compute; reflexivity |].
  split; [exact (proj1 (C6_Decode_order Inputs.intel_state Ht)) |].
  split; vm_compute; reflexivity.
Defined.

(** ** Round trip *)

Lemma lookup_XMM3 x :
  lookup_reg "XMM3" (Decode x)
  = Some (BytesVal (take 16 (drop 48 (XmmSpace (PtraceFpRegs x))))).
Proof.
  rewrite Decode_unrolled.
  unfold Unrolled.rows, Spec.vector_rows.
  destruct (AvxState x), (Avx512State x); vm_compute; reflexivity.
Qed.

Lemma AMD64XstateRead_legacy xs regset hint :
  576 < len xs ->
  PtraceFpRegs (fst (AMD64XstateRead xs true regset hint))
  = dec_fpregs (take 512 (elems xs)).
Proof.
  intros Hl. rewrite AMD64XstateRead_long by assumption. cbv zeta.
  repeat match goal with
         | |- context [if ?c then _ else _] => destruct c
         end; reflexivity.
Qed.

(** The decoder never assigns [regset.Xsave]. *)
Lemma AMD64XstateRead_Xsave xs readLegacy regset hint :
  Xsave (fst (AMD64XstateRead xs readLegacy regset hint)) = Xsave regset.
Proof.
  destruct (len_cases xs) as [Hs | Hl].
  - rewrite AMD64XstateRead_short by assumption. reflexivity.
  - rewrite AMD64XstateRead_long by assumption. cbv zeta.
    repeat match goal with
           | |- context [if ?c then _ else _] => destruct c
           end; reflexivity.
Qed.

(** How the call ends depends on the buffer and the hint alone. *)
Lemma AMD64XstateRead_exit xs readLegacy regset regset' hint :
  snd (AMD64XstateRead xs readLegacy regset hint)
  = snd (AMD64XstateRead xs readLegacy regset' hint).
Proof.
  destruct (len_cases xs) as [Hs | Hl].
  - rewrite !AMD64XstateRead_short by assumption. reflexivity.
  - rewrite !AMD64XstateRead_long by assumption. cbv zeta.
    repeat match goal with
           | |- context [if ?c then _ else _] => destruct c
           end; reflexivity.
Qed.

(** Storing back the bytes that are there changes nothing. *)
Lemma copy_at_same xs pos (k : nat) :
  0 <= pos ->
  copy_at xs pos (take k (drop (Z.to_nat pos) (elems xs))) = xs.
Proof.
  intros Hpos. destruct xs as [es sp]. unfold copy_at; cbn [elems spare].
  f_equal. apply list_eq. intros j.
  set (src := take k (drop (Z.to_nat pos) es)).
  destruct (decide (j < Z.to_nat pos)%nat) as [Hlt | Hge].
  { apply list_lookup_inserts_lt. exact Hlt. }
  destruct (decide (Z.to_nat pos + length src <= j)%nat) as [Hhi | Hin].
  { apply list_lookup_inserts_ge. exact Hhi. }
  assert (Hsrc : (length src <= k)%nat /\
                 (length src <= length es - Z.to_nat pos)%nat)
    by (unfold src; rewrite length_take, length_drop; lia).
  rewrite list_lookup_inserts by lia.
  unfold src. rewrite lookup_take_lt by lia.
  rewrite lookup_drop. f_equal. lia.
Qed.

Lemma set_Xsave_id st : set_Xsave (Xsave st) st = st.
Proof. destruct st. reflexivity. Qed.

(** C7: on a buffer longer than 576 bytes, decoded with the legacy parse
    into a state that refers to it, [XMM3] is projected as 16 bytes;
    writing these bytes back at index 3 succeeds and leaves the buffer as
    it was, and decoding the buffer again, into any state, ends as the
    first decoding did and projects the same value for [XMM3]. *)
Theorem C7_roundtrip_XMM3 xs regset hint :
  576 < len xs -> Xsave regset = xs ->
  let r1 := AMD64XstateRead xs true regset hint in
  exists v,
    lookup_reg "XMM3" (Decode (fst r1)) = Some (BytesVal v) /\
    length v = 16%nat /\
    let r2 := SetXmmRegister (fst r1) 3 v in
    snd r2 = Return None /\
    Xsave (fst r2) = xs /\
    forall regset',
      let r3 := AMD64XstateRead (Xsave (fst r2)) true regset' hint in
      snd r3 = snd r1 /\
      lookup_reg "XMM3" (Decode (fst r3)) = Some (BytesVal v).
Proof.
  intros Hl HX r1.
  assert (Hlen : (576 < length (elems xs))%nat) by (unfold len in Hl; lia).
  exists (take 16 (drop 208 (elems xs))).
  assert (Hv : take 16 (drop 48 (XmmSpace (dec_fpregs (take 512 (elems xs)))))
               = take 16 (drop 208 (elems xs))).
  { rewrite dec_fpregs_XmmSpace. apply list_eq. intros i.
    destruct (decide (i < 16)%nat) as [Hi | Hi].
    - rewrite !(lookup_take_lt _ 16) by lia.
      rewrite lookup_drop, lookup_take_lt by lia.
      rewrite lookup_drop, lookup_take_lt by lia.
      rewrite lookup_drop. f_equal; lia.
    - rewrite !(lookup_take_ge _ 16) by lia. reflexivity. }
  assert (HX1 : Xsave (fst r1) = xs)
    by (subst r1; rewrite AMD64XstateRead_Xsave; exact HX).
  split; [| split].
  - rewrite lookup_XMM3. subst r1.
    rewrite AMD64XstateRead_legacy by assumption. rewrite Hv. reflexivity.
  - rewrite length_take, length_drop. lia.
  - cbv zeta.
    assert (Hset : SetXmmRegister (fst r1) 3 (take 16 (drop 208 (elems xs)))
                   = (fst r1, Return None)).
    { rewrite SetXmmRegister_success;
        rewrite ?HX1; unfold blen; rewrite ?length_take, ?length_drop;
        try (unfold len; lia).
      rewrite (drop_ge (take 16 _) 16), (drop_ge (take 16 _) 32)
        by (rewrite length_take; lia).
      rewrite take_nil, !copy_at_nil, take_take.
      change (160 + 3 * 16) with 208.
      change 208%nat with (Z.to_nat 208).
      rewrite copy_at_same by lia.
      rewrite <- HX1 at 1. rewrite set_Xsave_id. reflexivity. }
    rewrite Hset. cbn [fst snd].
    split; [reflexivity |]. split; [exact HX1 |].
    intros regset'. rewrite HX1.
    split.
    + subst r1. apply AMD64XstateRead_exit.
    + rewrite lookup_XMM3, AMD64XstateRead_legacy by assumption.
      rewrite Hv. reflexivity.
Qed.

Lemma C7_roundtrip_XMM3_witness :
  let xs := Inputs.avx_area in
  let r1 := AMD64XstateRead xs true (Inputs.state_on xs) 0 in
  let v := [x01; x02; x03; x04; x05; x06; x07; x08;
            x09; x0a; x0b; x0c; x0d; x0e; x0f; x10] in
  576 < len xs /\
  lookup_reg "XMM3" (Decode (fst r1)) = Some (BytesVal v) /\
  snd (SetXmmRegister (fst r1) 3 v) = Return None /\
  lookup_reg "XMM3"
    (Decode (fst (AMD64XstateRead
                    (Xsave (fst (SetXmmRegister (fst r1) 3 v)))
                    true zero_xstate 0)))
  = Some (BytesVal v).
Proof.
  intros xs r1 v.
  assert (Hl : 576 < len xs) by (vm_compute; reflexivity).
  split; [exact Hl |].
  destruct (C7_roundtrip_XMM3 xs (Inputs.state_on xs) 0 Hl eq_refl)
    as (v' & Hv & _ & Hs & _ & Hd).
  fold r1 in Hv, Hs, Hd.
  assert (E : v' = v).
  { assert (Hc : lookup_reg "XMM3" (Decode (fst r1)) = Some (BytesVal v))
      by (vm_compute; reflexivity).
    rewrite Hv in Hc. injection Hc as Hc. exact Hc. }
  subst v'.
  split; [exact Hv |]. split; [exact Hs |].
  exact (proj2 (Hd zero_xstate)).
Defined.

(* ================================================================== *)
(** * Further properties of the codec *)

(** ** Bytes and fields *)

Lemma byte_of_Z_to_Z b r : byte_of_Z (byte_to_Z b + 256 * r) = b.
Proof.
  unfold byte_of_Z, byte_to_Z.
  pose proof (Byte.to_N_bounded b) as Hb.
  rewrite (Z.mul_comm 256 r), Z_mod_plus_full.
  rewrite Z.mod_small by lia.
  rewrite N2Z.id, Byte.of_to_N. reflexivity.
Qed.

(** Writing out the value of a byte string gives the string back, or its
    first bytes. *)
Lemma le_bytes_le_uint_take bs :
  forall k, (k <= length bs)%nat -> le_bytes k (le_uint bs) = take k bs.
Proof.
  induction bs as [| b bs IH]; intros k Hk.
  - destruct k; [reflexivity | simpl in Hk; lia].
  - destruct k as [| k]; [reflexivity |].
    cbn [le_bytes le_uint take]. rewrite byte_of_Z_to_Z. f_equal.
    rewrite <- (IH k) by (simpl in Hk; lia). f_equal.
    rewrite Z.shiftr_div_pow2 by lia.
    pose proof (Byte.to_N_bounded b) as Hb. unfold byte_to_Z.
    change (2 ^ 8) with 256.
    rewrite (Z.mul_comm 256), Z_div_plus_full by lia.
    rewrite Z.div_small by lia. lia.
Qed.

(** A range of a range. *)
Lemma take_drop_nested {A} (l : list A) (a b c d : nat) :
  (b + a <= c)%nat ->
  take a (drop b (take c (drop d l))) = take a (drop (d + b) l).
Proof.
  intros H. apply list_eq. intros i.
  destruct (decide (i < a)%nat) as [Hi | Hi].
  - rewrite !(lookup_take_lt _ a) by lia.
    rewrite lookup_drop, lookup_take_lt by lia.
    rewrite !lookup_drop. f_equal; lia.
  - rewrite !(lookup_take_ge _ a) by lia. reflexivity.
Qed.

Lemma dec_uints_lookup (k n : nat) :
  forall bs (i : nat),
    (i < n)%nat ->
    fst (dec_uints k n bs) !! i = Some (le_uint (take k (drop (k * i) bs))).
Proof.
  induction n as [| n IH]; intros bs i Hi; [lia |].
  cbn [dec_uints]. unfold dec_uint. cbv beta iota.
  specialize (IH (drop k bs)).
  destruct (dec_uints k n (drop k bs)) as [vs rest].
  cbn [fst] in *.
  destruct i as [| i].
  - rewrite Nat.mul_0_r, drop_0. reflexivity.
  - cbn [lookup list_lookup]. rewrite IH by lia.
    rewrite drop_drop.
    replace (k * S i)%nat with (k + k * i)%nat by lia. reflexivity.
Qed.

(** The legacy record, field by field: each field is the little-endian
    value of its bytes, at the offset the declaration order gives it. *)
Lemma dec_fpregs_fields bs :
  let fp := dec_fpregs bs in
  Cwd fp = le_uint (take 2 bs) /\
  Swd fp = le_uint (take 2 (drop 2 bs)) /\
  Ftw fp = le_uint (take 2 (drop 4 bs)) /\
  Fop fp = le_uint (take 2 (drop 6 bs)) /\
  Rip fp = le_uint (take 8 (drop 8 bs)) /\
  Rdp fp = le_uint (take 8 (drop 16 bs)) /\
  Mxcsr fp = le_uint (take 4 (drop 24 bs)) /\
  MxcrMask fp = le_uint (take 4 (drop 28 bs)) /\
  (forall i : nat, (i < 32)%nat ->
     StSpace fp !! i = Some (le_uint (take 4 (drop (32 + 4 * i) bs)))) /\
  XmmSpace fp = take 256 (drop 160 bs) /\
  (forall i : nat, (i < 24)%nat ->
     Padding fp !! i = Some (le_uint (take 4 (drop (416 + 4 * i) bs)))).
Proof.
  intros fp. pose proof (dec_fpregs_XmmSpace bs) as HX. subst fp.
  unfold dec_fpregs, dec_uint, dec_bytes in *.
  pose proof (dec_uints_lookup 4 32
    (drop 4 (drop 4 (drop 8 (drop 8 (drop 2 (drop 2 (drop 2 (drop 2 bs)))))))))
    as Hst.
  pose proof (dec_uints_spec 4 32
    (drop 4 (drop 4 (drop 8 (drop 8 (drop 2 (drop 2 (drop 2 (drop 2 bs)))))))))
    as (Hrest & _).
  destruct (dec_uints 4 32 _) as [st rest]. cbn [fst snd] in *.
  pose proof (dec_uints_lookup 4 24 (drop 256 rest)) as Hpad.
  destruct (dec_uints 4 24 _) as [pad rest2]. cbn [fst] in *.
  cbn [Cwd Swd Ftw Fop Rip Rdp Mxcsr MxcrMask StSpace XmmSpace Padding] in *.
  rewrite !drop_drop.
  repeat match goal with |- _ /\ _ => split end; try reflexivity.
  - intros i Hi. rewrite Hst by exact Hi. rewrite !drop_drop. reflexivity.
  - exact HX.
  - intros i Hi. rewrite Hpad by exact Hi. rewrite Hrest, !drop_drop. reflexivity.
Qed.

Lemma take_drop_take {A} (l : list A) (a b c : nat) :
  (b + a <= c)%nat -> take a (drop b (take c l)) = take a (drop b l).
Proof.
  intros H. rewrite <- (drop_0 l) at 1.
  rewrite take_drop_nested by exact H. reflexivity.
Qed.

Lemma copy_array_full dst src :
  length src = length dst -> copy_array dst src = src.
Proof.
  intros H. unfold copy_array.
  pose proof (list_inserts_0_r src dst [] H) as E.
  rewrite !app_nil_r in E. exact E.
Qed.

Lemma length_bytes_at xs (off k : nat) :
  (off + k <= length (elems xs))%nat -> length (bytes_at xs off k) = k.
Proof. intros H. unfold bytes_at. rewrite length_take, length_drop. lia. Qed.

(** ** The decoder on complete save areas *)

(** The offset the decoder resolves for a buffer and a hint. *)
Lemma resolved_offset_cases xs hint :
  let off :=
    if hint =? 0
    then (if Z.testbit (xcr0_of xs) 9 && (len xs =? 2440) then 896 else 1152)
    else hint in
  (hint <> 0 /\ off = hint) \/ (hint = 0 /\ (off = 896 \/ off = 1152)).
Proof.
  cbv zeta. destruct (hint =? 0) eqn:E.
  - apply Z.eqb_eq in E. right. split; [exact E |].
    destruct (Z.testbit (xcr0_of xs) 9 && (len xs =? 2440)); auto.
  - apply Z.eqb_neq in E. left. split; [exact E | reflexivity].
Qed.

(** The whole result on a standard-format buffer with both components,
    when both blocks lie inside the buffer. *)
Lemma AMD64XstateRead_both_blocks xs readLegacy regset hint :
  832 <= len xs ->
  Z.testbit (xcomp_bv_of xs) 63 = false ->
  Z.testbit (xstate_bv_of xs) 2 = true ->
  Z.testbit (xstate_bv_of xs) 6 = true ->
  let off :=
    if hint =? 0
    then (if Z.testbit (xcr0_of xs) 9 && (len xs =? 2440) then 896 else 1152)
    else hint in
  0 <= off -> off + 512 <= len xs ->
  AMD64XstateRead xs readLegacy regset hint =
    (let st1 :=
       if readLegacy
       then set_PtraceFpRegs (dec_fpregs (take 512 (elems xs))) regset
       else regset in
     set_ZmmSpace
       (copy_array (ZmmSpace regset) (bytes_at xs (Z.to_nat off) 512))
       (set_Avx512State true
          (set_zmmHi256offset off
             (set_YmmSpace
                (copy_array (YmmSpace regset) (bytes_at xs 576 256))
                (set_AvxState true st1)))),
     Return None).
Proof.
  intros Hlen Hc Ha Hz off H0 H1.
  pose proof (len_le_cap xs) as Hcap.
  rewrite AMD64XstateRead_long by lia. cbv zeta.
  rewrite Hc, Ha, Hz. cbn [negb]. fold off.
  rewrite (proj2 (Z.ltb_ge (cap xs) 832)) by lia.
  replace ((off <? 0) || (len xs <? off)) with false
    by (symmetry; apply orb_false_iff; split; apply Z.ltb_ge; lia).
  rewrite (proj2 (Z.ltb_ge (cap xs) (off + 512))) by lia.
  rewrite !take_drop_backing by (unfold len in *; lia).
  unfold bytes_at.
  destruct readLegacy; reflexivity.
Qed.

(** X1: the decoder never returns an error: whatever the buffer, the
    flag, the state and the hint, a call either returns nil or panics.
    The error branch after [binary.Read] cannot be taken, because the
    reader always holds the 512 bytes of the record. *)
Theorem X1_decode_never_returns_an_error xs readLegacy regset hint :
  forall err, snd (AMD64XstateRead xs readLegacy regset hint) <> Return (Some err).
Proof.
  intros err.
  destruct (len_cases xs) as [Hs | Hl].
  - rewrite AMD64XstateRead_short by assumption. discriminate.
  - rewrite AMD64XstateRead_long by assumption. cbv zeta.
    repeat match goal with
           | |- context [if ?c then _ else _] => destruct c
           end; discriminate.
Qed.

(** X2: on a buffer of at least 832 bytes the decoder returns nil,
    without a panic, when the ZMM_Hi256 block of a guessed offset fits
    (hint zero and at least 1664 bytes) or the block of the hinted offset
    fits (hint not zero, not negative, hint + 512 within the buffer). *)
Theorem X2_decode_returns_on_complete_area xs readLegacy regset hint :
  832 <= len xs ->
  (hint = 0 -> 1664 <= len xs) ->
  (hint <> 0 -> 0 <= hint /\ hint + 512 <= len xs) ->
  snd (AMD64XstateRead xs readLegacy regset hint) = Return None.
Proof.
  intros Hlen Hg Hh.
  pose proof (len_le_cap xs) as Hcap.
  rewrite AMD64XstateRead_long by lia. cbv zeta.
  destruct (Z.testbit (xcomp_bv_of xs) 63); [reflexivity |].
  destruct (negb (Z.testbit (xstate_bv_of xs) 2)); [reflexivity |].
  rewrite (proj2 (Z.ltb_ge (cap xs) 832)) by lia.
  destruct (negb (Z.testbit (xstate_bv_of xs) 6)); [reflexivity |].
  pose proof (resolved_offset_cases xs hint) as Hoff. cbv zeta in Hoff.
  set (off := if hint =? 0 then _ else hint) in *.
  assert (Hb : 0 <= off /\ off + 512 <= len xs).
  { destruct Hoff as [[Hne ->] | [He [-> | ->]]]; [apply Hh, Hne | |];
      specialize (Hg He); lia. }
  replace ((off <? 0) || (len xs <? off)) with false
    by (symmetry; apply orb_false_iff; split; apply Z.ltb_ge; lia).
  rewrite (proj2 (Z.ltb_ge (cap xs) (off + 512))) by lia.
  reflexivity.
Qed.

Lemma X2_decode_returns_on_complete_area_witness :
  832 <= len Inputs.intel_area /\
  snd (AMD64XstateRead Inputs.intel_area true zero_xstate 0) = Return None /\
  snd (AMD64XstateRead Inputs.amd_area true zero_xstate 896) = Return None.
Proof.
  split; [vm_compute; discriminate |].
  split.
  - apply (X2_decode_returns_on_complete_area Inputs.intel_area true zero_xstate 0).
    + vm_compute. discriminate.
    + intros _. vm_compute. discriminate.
    + intros H. exfalso. apply H. reflexivity.
  - apply (X2_decode_returns_on_complete_area Inputs.amd_area true zero_xstate 896).
    + vm_compute. discriminate.
    + intros H. discriminate H.
    + intros _. vm_compute. split; discriminate.
Defined.

(** X3: when the buffer is at most 576 bytes long, or uses the compact
    format, or has no AVX bit in its header bitmap, the decoder returns nil
    and changes nothing but the legacy record; decoded into a state
    without AVX, it projects to 32 rows, none of them a YMM or ZMM row. *)
Theorem X3_no_extended_state xs readLegacy regset hint :
  len xs <= 576 \/ Z.testbit (xcomp_bv_of xs) 63 = true \/
  Z.testbit (xstate_bv_of xs) 2 = false ->
  let r := AMD64XstateRead xs readLegacy regset hint in
  snd r = Return None /\
  fst r = set_PtraceFpRegs (PtraceFpRegs (fst r)) regset /\
  (AvxState regset = false ->
   length (Decode (fst r)) = 32%nat /\
   Forall (fun s => String.prefix "YMM" s = false /\ String.prefix "ZMM" s = false)
     (map Name (Decode (fst r)))).
Proof.
  intros H r.
  assert (Hr : r = (regset, Return None) \/
               r = (set_PtraceFpRegs (dec_fpregs (take 512 (elems xs))) regset,
                    Return None)).
  { subst r. destruct (len_cases xs) as [Hs | Hl].
    - left. apply AMD64XstateRead_short, Hs.
    - rewrite AMD64XstateRead_long by assumption. cbv zeta.
      destruct H as [H | [H | H]]; [lia | |].
      + rewrite H. destruct readLegacy; auto.
      + destruct (Z.testbit (xcomp_bv_of xs) 63);
          [destruct readLegacy; auto |].
        rewrite H. cbn [negb]. destruct readLegacy; auto. }
  assert (Hrows : forall st, AvxState st = false ->
            length (Decode st) = 32%nat /\
            Forall (fun s => String.prefix "YMM" s = false /\
                             String.prefix "ZMM" s = false)
              (map Name (Decode st))).
  { intros st Hst. rewrite Decode_unrolled.
    split; [| apply Unrolled_names_gated, Hst].
    unfold Unrolled.rows, Spec.vector_rows. rewrite Hst. reflexivity. }
  destruct Hr as [-> | ->]; cbn [fst snd].
  - split; [reflexivity |]. split; [destruct regset; reflexivity |].
    apply Hrows.
  - split; [reflexivity |]. split; [reflexivity |].
    intros Hf. apply Hrows. exact Hf.
Qed.

Lemma X3_no_extended_state_witness :
  Z.testbit (xstate_bv_of (Inputs.buffer 832 [])) 2 = false /\
  snd (AMD64XstateRead (Inputs.buffer 832 []) true zero_xstate 0) = Return None /\
  length (Decode (fst (AMD64XstateRead (Inputs.buffer 832 []) true zero_xstate 0)))
  = 32%nat.
Proof.
  assert (H : Z.testbit (xstate_bv_of (Inputs.buffer 832 [])) 2 = false)
    by (vm_compute; reflexivity).
  split; [exact H |].
  destruct (X3_no_extended_state (Inputs.buffer 832 []) true zero_xstate 0
              (or_intror (or_intror H))) as (E & _ & R).
  split; [exact E |].
  exact (proj1 (R eq_refl)).
Defined.

(** X4: with the legacy parse requested on a buffer longer than 576
    bytes, every field of the legacy record is the little-endian value of
    the bytes at its offset in the buffer: the four 16-bit words at 0, 2,
    4 and 6, the two 64-bit pointers at 8 and 16, MXCSR and its mask at 24
    and 28, the 32 x87 words from 32, the 256 XMM bytes from 160 and the
    24 padding words from 416. *)
Theorem X4_legacy_layout xs regset hint :
  576 < len xs ->
  let fp := PtraceFpRegs (fst (AMD64XstateRead xs true regset hint)) in
  Cwd fp = field_le xs 0 2 /\ Swd fp = field_le xs 2 2 /\
  Ftw fp = field_le xs 4 2 /\ Fop fp = field_le xs 6 2 /\
  Rip fp = field_le xs 8 8 /\ Rdp fp = field_le xs 16 8 /\
  Mxcsr fp = field_le xs 24 4 /\ MxcrMask fp = field_le xs 28 4 /\
  (forall i : nat, (i < 32)%nat ->
     StSpace fp !! i = Some (field_le xs (32 + 4 * i) 4)) /\
  XmmSpace fp = bytes_at xs 160 256 /\
  (forall i : nat, (i < 24)%nat ->
     Padding fp !! i = Some (field_le xs (416 + 4 * i) 4)).
Proof.
  intros Hl fp. subst fp.
  rewrite AMD64XstateRead_legacy by assumption.
  destruct (dec_fpregs_fields (take 512 (elems xs)))
    as (F1 & F2 & F3 & F4 & F5 & F6 & F7 & F8 & F9 & F10 & F11).
  unfold field_le, bytes_at.
  rewrite F1, F2, F3, F4, F5, F6, F7, F8, F10.
  rewrite <- (drop_0 (take 512 (elems xs))) at 1.
  rewrite <- (drop_0 (elems xs)) at 10.
  rewrite !take_drop_take by lia.
  repeat match goal with |- _ /\ _ => split end; try reflexivity.
  - intros i Hi. rewrite F9 by exact Hi. rewrite take_drop_take by lia. reflexivity.
  - intros i Hi. rewrite F11 by exact Hi. rewrite take_drop_take by lia. reflexivity.
Qed.

Lemma X4_legacy_layout_witness :
  576 < len Inputs.avx_area /\
  Cwd (PtraceFpRegs (fst (AMD64XstateRead Inputs.avx_area true zero_xstate 0)))
  = 0x037f.
Proof.
  assert (H : 576 < len Inputs.avx_area) by (vm_compute; reflexivity).
  split; [exact H |].
  rewrite (proj1 (X4_legacy_layout Inputs.avx_area zero_xstate 0 H)).
  vm_compute. reflexivity.
Defined.

(** X5: what the decoder never does.  It never assigns the state's
    [Xsave]; without the legacy flag it never touches the legacy record;
    it never clears a presence flag that was set. *)
Theorem X5_decode_frame xs readLegacy regset hint :
  let r := AMD64XstateRead xs readLegacy regset hint in
  Xsave (fst r) = Xsave regset /\
  (readLegacy = false -> PtraceFpRegs (fst r) = PtraceFpRegs regset) /\
  (AvxState regset = true -> AvxState (fst r) = true) /\
  (Avx512State regset = true -> Avx512State (fst r) = true).
Proof.
  intros r. subst r.
  destruct (len_cases xs) as [Hs | Hl].
  - rewrite AMD64XstateRead_short by assumption. cbn [fst]. auto.
  - rewrite AMD64XstateRead_long by assumption. cbv zeta.
    repeat match goal with
           | |- context [if ?c then _ else _] => destruct c
           end; cbn; repeat split; auto; discriminate.
Qed.

(** X6: on a standard-format buffer of at least 832 bytes whose header
    has the AVX bit, the decoder marks AVX present and [YmmSpace] becomes
    the 256 bytes at offset 576, however the call goes on; when the
    ZMM_Hi256 bit is clear the call returns nil and leaves the AVX-512
    flag, [ZmmSpace] and the cached offset as they were. *)
Theorem X6_avx_block_decoded xs readLegacy regset hint :
  832 <= len xs ->
  Z.testbit (xcomp_bv_of xs) 63 = false ->
  Z.testbit (xstate_bv_of xs) 2 = true ->
  length (YmmSpace regset) = 256%nat ->
  let r := AMD64XstateRead xs readLegacy regset hint in
  AvxState (fst r) = true /\
  YmmSpace (fst r) = bytes_at xs 576 256 /\
  (Z.testbit (xstate_bv_of xs) 6 = false ->
   snd r = Return None /\
   Avx512State (fst r) = Avx512State regset /\
   ZmmSpace (fst r) = ZmmSpace regset /\
   zmmHi256offset (fst r) = zmmHi256offset regset).
Proof.
  intros Hlen Hc Ha Hy r. subst r.
  pose proof (len_le_cap xs) as Hcap.
  rewrite AMD64XstateRead_long by lia. cbv zeta.
  rewrite Hc, Ha. cbn [negb].
  rewrite (proj2 (Z.ltb_ge (cap xs) 832)) by lia.
  rewrite take_drop_backing by (unfold len in *; lia).
  fold (bytes_at xs 576 256).
  assert (Hcopy : forall st, YmmSpace st = YmmSpace regset ->
            copy_array (YmmSpace st) (bytes_at xs 576 256) = bytes_at xs 576 256).
  { intros st E. apply copy_array_full.
    rewrite E, Hy. apply length_bytes_at. unfold len in Hlen. lia. }
  rewrite Hcopy by (destruct readLegacy; reflexivity).
  destruct (Z.testbit (xstate_bv_of xs) 6); cbn [negb].
  - split; [| split; [| discriminate]];
      repeat match goal with
             | |- context [if ?c then _ else _] => destruct c
             end; reflexivity.
  - cbn [fst snd]. repeat split; destruct readLegacy; reflexivity.
Qed.

Lemma X6_avx_block_decoded_witness :
  832 <= len Inputs.avx_area /\
  AvxState (fst (AMD64XstateRead Inputs.avx_area true zero_xstate 0)) = true /\
  YmmSpace (fst (AMD64XstateRead Inputs.avx_area true zero_xstate 0))
  = bytes_at Inputs.avx_area 576 256.
Proof.
  assert (H : 832 <= len Inputs.avx_area) by (vm_compute; discriminate).
  split; [exact H |].
  destruct (X6_avx_block_decoded Inputs.avx_area true zero_xstate 0 H)
    as (A & Y & _); try (vm_compute; reflexivity).
  split; [exact A | exact Y].
Defined.

(** X7: on a standard-format buffer whose header has the AVX and
    ZMM_Hi256 bits, when the 512 bytes at the offset the decoder records
    lie inside the buffer, the call returns nil with both presence flags
    set and [ZmmSpace] holding those 512 bytes. *)
Theorem X7_avx512_block_decoded xs readLegacy regset hint :
  832 <= len xs ->
  Z.testbit (xcomp_bv_of xs) 63 = false ->
  Z.testbit (xstate_bv_of xs) 2 = true ->
  Z.testbit (xstate_bv_of xs) 6 = true ->
  length (ZmmSpace regset) = 512%nat ->
  let r := AMD64XstateRead xs readLegacy regset hint in
  let off := zmmHi256offset (fst r) in
  0 <= off -> off + 512 <= len xs ->
  snd r = Return None /\
  AvxState (fst r) = true /\ Avx512State (fst r) = true /\
  ZmmSpace (fst r) = bytes_at xs (Z.to_nat off) 512.
Proof.
  intros Hlen Hc Ha Hz Hzl r off. subst off r.
  pose proof (len_le_cap xs) as Hcap.
  rewrite AMD64XstateRead_long by lia. cbv zeta.
  rewrite Hc, Ha, Hz. cbn [negb].
  rewrite (proj2 (Z.ltb_ge (cap xs) 832)) by lia.
  set (off := if hint =? 0 then _ else hint).
  destruct ((off <? 0) || (len xs <? off)) eqn:E1.
  { cbn [fst zmmHi256offset set_zmmHi256offset]. intros H0 H1.
    apply orb_true_iff in E1 as [E | E]; apply Z.ltb_lt in E; lia. }
  destruct (cap xs <? off + 512) eqn:E2.
  { cbn [fst zmmHi256offset set_zmmHi256offset set_Avx512State]. intros H0 H1.
    apply Z.ltb_lt in E2. lia. }
  cbn [fst snd zmmHi256offset set_zmmHi256offset set_Avx512State set_ZmmSpace
       AvxState Avx512State ZmmSpace set_YmmSpace set_AvxState].
  intros H0 H1.
  split; [reflexivity |]. split; [reflexivity |]. split; [reflexivity |].
  rewrite take_drop_backing by (unfold len in *; lia).
  fold (bytes_at xs (Z.to_nat off) 512).
  apply copy_array_full.
  rewrite length_bytes_at by (unfold len in *; lia).
  destruct readLegacy; symmetry; exact Hzl.
Qed.

Lemma X7_avx512_block_decoded_witness :
  let r := AMD64XstateRead Inputs.intel_area true zero_xstate 0 in
  zmmHi256offset (fst r) = 1152 /\
  snd r = Return None /\ Avx512State (fst r) = true /\
  ZmmSpace (fst r) = bytes_at Inputs.intel_area 1152 512.
Proof.
  intros r.
  assert (Hoff : zmmHi256offset (fst r) = 1152) by (vm_compute; reflexivity).
  split; [exact Hoff |].
  assert (H1 : 832 <= len Inputs.intel_area) by (vm_compute; discriminate).
  assert (H2 : Z.testbit (xcomp_bv_of Inputs.intel_area) 63 = false)
    by (vm_compute; reflexivity).
  assert (H3 : Z.testbit (xstate_bv_of Inputs.intel_area) 2 = true)
    by (vm_compute; reflexivity).
  assert (H4 : Z.testbit (xstate_bv_of Inputs.intel_area) 6 = true)
    by (vm_compute; reflexivity).
  assert (H5 : length (ZmmSpace zero_xstate) = 512%nat)
    by (vm_compute; reflexivity).
  pose proof (X7_avx512_block_decoded Inputs.intel_area true zero_xstate 0
                H1 H2 H3 H4 H5) as H.
  cbv zeta in H. fold r in H. rewrite Hoff in H.
  destruct H as (E & _ & A & Z).
  - lia.
  - vm_compute. discriminate.
  - split; [exact E |]. split; [exact A | exact Z].
Defined.

(** X8: the decoder keeps the register state a value of its Go type:
    the arrays keep their lengths (32 and 24 words, 256, 256 and 512
    bytes) and every integer field stays within the range of its unsigned
    type, on every buffer and however the call ends. *)
Theorem X8_decode_keeps_go_types xs readLegacy regset hint :
  typed_xstate regset ->
  typed_xstate (fst (AMD64XstateRead xs readLegacy regset hint)).
Proof. apply AMD64XstateRead_typed. Qed.

Lemma X8_decode_keeps_go_types_witness :
  typed_xstate zero_xstate /\
  typed_xstate (fst (AMD64XstateRead Inputs.amd_area true zero_xstate 0)).
Proof.
  split; [exact zero_xstate_typed |].
  exact (X8_decode_keeps_go_types Inputs.amd_area true zero_xstate 0
           zero_xstate_typed).
Defined.

(** ** Rows by name *)

Lemma lookup_x87 x :
  let fp := PtraceFpRegs x in
  lookup_reg "CW" (Decode x) = Some (Uint64Val (uint64 (Cwd fp))) /\
  lookup_reg "SW" (Decode x) = Some (Uint64Val (uint64 (Swd fp))) /\
  lookup_reg "TW" (Decode x) = Some (Uint64Val (uint64 (Ftw fp))) /\
  lookup_reg "FOP" (Decode x) = Some (Uint64Val (uint64 (Fop fp))) /\
  lookup_reg "FIP" (Decode x) = Some (Uint64Val (Rip fp)) /\
  lookup_reg "FDP" (Decode x) = Some (Uint64Val (Rdp fp)) /\
  lookup_reg "MXCSR" (Decode x) = Some (Uint64Val (uint64 (Mxcsr fp))) /\
  lookup_reg "MXCSR_MASK" (Decode x) = Some (Uint64Val (uint64 (MxcrMask fp))).
Proof.
  rewrite Decode_unrolled. cbv zeta.
  repeat match goal with |- _ /\ _ => split end; reflexivity.
Qed.

Lemma lookup_ST x (k : nat) :
  (k < 8)%nat ->
  lookup_reg ("ST(" +:+ itoa (Z.of_nat k) +:+ ")") (Decode x)
  = Some (Reg (Unrolled.st_row x k)).
Proof.
  intros Hk. rewrite Decode_unrolled.
  do 8 (destruct k as [| k]; [reflexivity |]). lia.
Qed.

Lemma lookup_XMM x (n : nat) :
  (n < 16)%nat ->
  lookup_reg ("XMM" +:+ itoa (Z.of_nat n)) (Decode x)
  = Some (BytesVal (take 16 (drop (16 * n) (XmmSpace (PtraceFpRegs x))))).
Proof.
  intros Hn. rewrite Decode_unrolled.
  unfold Unrolled.rows, Spec.vector_rows.
  destruct (AvxState x), (Avx512State x);
    do 16 (destruct n as [| n]; [reflexivity |]); lia.
Qed.

Lemma lookup_YMM x (n : nat) :
  (n < 16)%nat -> AvxState x = true ->
  lookup_reg ("YMM" +:+ itoa (Z.of_nat n)) (Decode x)
  = Some (BytesVal (take 16 (drop (16 * n) (YmmSpace x)))).
Proof.
  intros Hn Ha. rewrite Decode_unrolled.
  unfold Unrolled.rows, Spec.vector_rows. rewrite Ha.
  destruct (Avx512State x);
    do 16 (destruct n as [| n]; [reflexivity |]); lia.
Qed.

Lemma lookup_ZMM x (n : nat) :
  (n < 16)%nat -> AvxState x = true -> Avx512State x = true ->
  lookup_reg ("ZMM" +:+ itoa (Z.of_nat n)) (Decode x)
  = Some (BytesVal (take 32 (drop (32 * n) (ZmmSpace x)))).
Proof.
  intros Hn Ha Hz. rewrite Decode_unrolled.
  unfold Unrolled.rows, Spec.vector_rows. rewrite Ha, Hz.
  do 16 (destruct n as [| n]; [reflexivity |]); lia.
Qed.

(** ** Projection of a decoded buffer *)

(** The ten bytes of [ST(k)] rebuilt from the words that were read from
    the slot are the first ten bytes of the slot. *)
Lemma st_row_raw x bs (k : nat) :
  PtraceFpRegs x = dec_fpregs bs ->
  (k < 8)%nat -> (160 <= length bs)%nat ->
  Reg (Unrolled.st_row x k) = BytesVal (take 10 (drop (32 + 16 * k) bs)).
Proof.
  intros Hx Hk Hlen.
  destruct (dec_fpregs_fields bs) as (_ & _ & _ & _ & _ & _ & _ & _ & Hst & _).
  unfold Unrolled.st_row. cbv zeta. cbn [Reg]. rewrite Hx.
  assert (E0 : StSpace (dec_fpregs bs) !!! (4 * k)%nat
               = le_uint (take 4 (drop (32 + 4 * (4 * k)) bs)))
    by (apply list_lookup_total_correct, Hst; lia).
  assert (E1 : StSpace (dec_fpregs bs) !!! (4 * k + 1)%nat
               = le_uint (take 4 (drop (32 + 4 * (4 * k + 1)) bs)))
    by (apply list_lookup_total_correct, Hst; lia).
  assert (E2 : StSpace (dec_fpregs bs) !!! (4 * k + 2)%nat
               = le_uint (take 4 (drop (32 + 4 * (4 * k + 2)) bs)))
    by (apply list_lookup_total_correct, Hst; lia).
  rewrite E0, E1, E2.
  rewrite st_bytes_split
    by (apply (in_uint_le_uint 4); rewrite length_take; lia).
  rewrite !le_bytes_le_uint_take by (rewrite length_take, length_drop; lia).
  rewrite !take_take. cbn [Nat.min].
  f_equal.
  replace (32 + 4 * (4 * k))%nat with (32 + 16 * k)%nat by lia.
  replace (32 + 4 * (4 * k + 1))%nat with (32 + 16 * k + 4)%nat by lia.
  replace (32 + 4 * (4 * k + 2))%nat with (32 + 16 * k + 4 + 4)%nat by lia.
  rewrite <- !drop_drop.
  rewrite take_take_drop, take_take_drop. reflexivity.
Qed.

(** X9: a buffer longer than 576 bytes, decoded with the legacy parse and
    projected, shows its own bytes: the eight control and status rows are
    the little-endian fields at offsets 0, 2, 4, 6, 8, 16, 24 and 28,
    [ST(k)] is the 10 bytes at offset [32 + 16 k] and [XMMn] the 16 bytes
    at offset [160 + 16 n]. *)
Theorem X9_legacy_rows_are_raw_bytes xs regset hint :
  576 < len xs ->
  let regs := Decode (fst (AMD64XstateRead xs true regset hint)) in
  lookup_reg "CW" regs = Some (Uint64Val (field_le xs 0 2)) /\
  lookup_reg "SW" regs = Some (Uint64Val (field_le xs 2 2)) /\
  lookup_reg "TW" regs = Some (Uint64Val (field_le xs 4 2)) /\
  lookup_reg "FOP" regs = Some (Uint64Val (field_le xs 6 2)) /\
  lookup_reg "FIP" regs = Some (Uint64Val (field_le xs 8 8)) /\
  lookup_reg "FDP" regs = Some (Uint64Val (field_le xs 16 8)) /\
  lookup_reg "MXCSR" regs = Some (Uint64Val (field_le xs 24 4)) /\
  lookup_reg "MXCSR_MASK" regs = Some (Uint64Val (field_le xs 28 4)) /\
  (forall k : nat, (k < 8)%nat ->
     lookup_reg ("ST(" +:+ itoa (Z.of_nat k) +:+ ")") regs
     = Some (BytesVal (bytes_at xs (32 + 16 * k) 10))) /\
  (forall n : nat, (n < 16)%nat ->
     lookup_reg ("XMM" +:+ itoa (Z.of_nat n)) regs
     = Some (BytesVal (bytes_at xs (160 + 16 * n) 16))).
Proof.
  intros Hl regs. subst regs.
  assert (Hlen : (576 < length (elems xs))%nat) by (unfold len in Hl; lia).
  set (x := fst (AMD64XstateRead xs true regset hint)).
  assert (Hx : PtraceFpRegs x = dec_fpregs (take 512 (elems xs)))
    by (apply AMD64XstateRead_legacy, Hl).
  destruct (lookup_x87 x) as (L1 & L2 & L3 & L4 & L5 & L6 & L7 & L8).
  rewrite L1, L2, L3, L4, L5, L6, L7, L8, Hx.
  destruct (dec_fpregs_fields (take 512 (elems xs)))
    as (F1 & F2 & F3 & F4 & F5 & F6 & F7 & F8 & _ & F10 & _).
  rewrite F1, F2, F3, F4, F5, F6, F7, F8.
  rewrite !(uint64_id 16), !(uint64_id 32)
    by (first [lia | apply (in_uint_le_uint 2); rewrite length_take; lia
                   | apply (in_uint_le_uint 4); rewrite length_take; lia]).
  unfold field_le, bytes_at.
  rewrite <- (drop_0 (take 512 (elems xs))) at 1.
  rewrite <- (drop_0 (elems xs)) at 8.
  rewrite !take_drop_take by lia.
  repeat match goal with |- _ /\ _ => split end; try reflexivity.
  - intros k Hk. rewrite lookup_ST by exact Hk.
    rewrite (st_row_raw x (take 512 (elems xs)) k Hx Hk)
      by (rewrite length_take; lia).
    rewrite take_drop_take by lia. reflexivity.
  - intros n Hn. rewrite lookup_XMM by exact Hn.
    rewrite Hx, F10.
    rewrite take_drop_nested by lia.
    rewrite take_drop_take by lia. reflexivity.
Qed.

Lemma X9_legacy_rows_are_raw_bytes_witness :
  576 < len Inputs.avx_area /\
  lookup_reg "CW" (Decode (fst (AMD64XstateRead Inputs.avx_area true zero_xstate 0)))
  = Some (Uint64Val 0x037f) /\
  lookup_reg "XMM3" (Decode (fst (AMD64XstateRead Inputs.avx_area true zero_xstate 0)))
  = Some (BytesVal [x01; x02; x03; x04; x05; x06; x07; x08;
                    x09; x0a; x0b; x0c; x0d; x0e; x0f; x10]).
Proof.
  assert (H : 576 < len Inputs.avx_area) by (vm_compute; reflexivity).
  split; [exact H |].
  destruct (X9_legacy_rows_are_raw_bytes Inputs.avx_area zero_xstate 0 H)
    as (C & _ & _ & _ & _ & _ & _ & _ & _ & X).
  split.
  - rewrite C. vm_compute. reflexivity.
  - refine (eq_trans (X 3%nat ltac:(lia)) _). vm_compute. reflexivity.
Defined.

(** The AVX block of a decoded buffer. *)
Lemma AMD64XstateRead_avx_fields xs readLegacy regset hint :
  832 <= len xs ->
  Z.testbit (xcomp_bv_of xs) 63 = false ->
  Z.testbit (xstate_bv_of xs) 2 = true ->
  length (YmmSpace regset) = 256%nat ->
  AvxState (fst (AMD64XstateRead xs readLegacy regset hint)) = true /\
  YmmSpace (fst (AMD64XstateRead xs readLegacy regset hint)) = bytes_at xs 576 256.
Proof.
  intros Hlen Hc Ha Hy.
  pose proof (len_le_cap xs) as Hcap.
  rewrite AMD64XstateRead_long by lia. cbv zeta.
  rewrite Hc, Ha. cbn [negb].
  rewrite (proj2 (Z.ltb_ge (cap xs) 832)) by lia.
  rewrite take_drop_backing by (unfold len in *; lia).
  fold (bytes_at xs 576 256).
  assert (Hcopy : forall st, YmmSpace st = YmmSpace regset ->
            copy_array (YmmSpace st) (bytes_at xs 576 256) = bytes_at xs 576 256).
  { intros st E. apply copy_array_full.
    rewrite E, Hy. apply length_bytes_at. unfold len in Hlen. lia. }
  rewrite Hcopy by (destruct readLegacy; reflexivity).
  split;
    repeat match goal with
           | |- context [if ?c then _ else _] => destruct c
           end; reflexivity.
Qed.

(** The offset the decoder records is the one it resolves. *)
Lemma AMD64XstateRead_offset xs readLegacy regset hint :
  832 <= len xs ->
  Z.testbit (xcomp_bv_of xs) 63 = false ->
  Z.testbit (xstate_bv_of xs) 2 = true ->
  Z.testbit (xstate_bv_of xs) 6 = true ->
  zmmHi256offset (fst (AMD64XstateRead xs readLegacy regset hint))
  = (if hint =? 0
     then (if Z.testbit (xcr0_of xs) 9 && (len xs =? 2440) then 896 else 1152)
     else hint).
Proof.
  intros Hlen Hc Ha Hz.
  pose proof (len_le_cap xs) as Hcap.
  rewrite AMD64XstateRead_long by lia. cbv zeta.
  rewrite Hc, Ha, Hz. cbn [negb].
  rewrite (proj2 (Z.ltb_ge (cap xs) 832)) by lia.
  set (off := if hint =? 0 then _ else hint).
  destruct ((off <? 0) || (len xs <? off)); [reflexivity |].
  destruct (cap xs <? off + 512); reflexivity.
Qed.

(** X10: on a standard-format buffer of at least 832 bytes with the AVX
    bit, decoded into a state whose arrays have their lengths, the
    projected [YMMn] is the 16 bytes at offset [576 + 16 n]; with the
    ZMM_Hi256 bit as well and the block at the recorded offset [off]
    inside the buffer, the projected [ZMMn] is the 32 bytes at offset
    [off + 32 n]. *)
Theorem X10_extension_rows_are_raw_bytes xs readLegacy regset hint :
  832 <= len xs ->
  Z.testbit (xcomp_bv_of xs) 63 = false ->
  Z.testbit (xstate_bv_of xs) 2 = true ->
  length (YmmSpace regset) = 256%nat ->
  let x := fst (AMD64XstateRead xs readLegacy regset hint) in
  (forall n : nat, (n < 16)%nat ->
     lookup_reg ("YMM" +:+ itoa (Z.of_nat n)) (Decode x)
     = Some (BytesVal (bytes_at xs (576 + 16 * n) 16))) /\
  (Z.testbit (xstate_bv_of xs) 6 = true ->
   length (ZmmSpace regset) = 512%nat ->
   let off := zmmHi256offset x in
   0 <= off -> off + 512 <= len xs ->
   forall n : nat, (n < 16)%nat ->
     lookup_reg ("ZMM" +:+ itoa (Z.of_nat n)) (Decode x)
     = Some (BytesVal (bytes_at xs (Z.to_nat off + 32 * n) 32))).
Proof.
  intros Hlen Hc Ha Hy x.
  destruct (AMD64XstateRead_avx_fields xs readLegacy regset hint Hlen Hc Ha Hy)
    as [HA HY].
  fold x in HA, HY.
  split.
  - intros n Hn. rewrite lookup_YMM by assumption.
    rewrite HY. unfold bytes_at.
    rewrite take_drop_nested by lia. reflexivity.
  - intros Hz Hzl off H0 H1 n Hn.
    pose proof (AMD64XstateRead_offset xs readLegacy regset hint Hlen Hc Ha Hz)
      as Hoff.
    fold x in Hoff. fold off in Hoff.
    pose proof (AMD64XstateRead_both_blocks xs readLegacy regset hint
                  Hlen Hc Ha Hz) as Hr.
    cbv zeta in Hr. rewrite <- Hoff in Hr. specialize (Hr H0 H1).
    assert (HZ : Avx512State x = true /\
                 ZmmSpace x = bytes_at xs (Z.to_nat off) 512).
    { subst x. rewrite Hr. cbn [fst Avx512State ZmmSpace set_ZmmSpace].
      split; [reflexivity |].
      apply copy_array_full.
      rewrite length_bytes_at by (unfold len in *; lia). symmetry. exact Hzl. }
    destruct HZ as [HZ1 HZ2].
    rewrite lookup_ZMM by assumption.
    rewrite HZ2. unfold bytes_at.
    rewrite take_drop_nested by lia. reflexivity.
Qed.

Lemma X10_extension_rows_are_raw_bytes_witness :
  let xs := Inputs.buffer 2696 [(465%nat, x02); (512%nat, x44);
                                (592%nat, xaa); (1184%nat, xbb)] in
  let x := fst (AMD64XstateRead xs true zero_xstate 0) in
  832 <= len xs /\ zmmHi256offset x = 1152 /\
  lookup_reg "YMM1" (Decode x) = Some (BytesVal (xaa :: replicate 15 x00)) /\
  lookup_reg "ZMM1" (Decode x) = Some (BytesVal (xbb :: replicate 31 x00)).
Proof.
  intros xs x.
  assert (H1 : 832 <= len xs) by (vm_compute; discriminate).
  assert (H2 : Z.testbit (xcomp_bv_of xs) 63 = false) by (vm_compute; reflexivity).
  assert (H3 : Z.testbit (xstate_bv_of xs) 2 = true) by (vm_compute; reflexivity).
  assert (H4 : length (YmmSpace zero_xstate) = 256%nat) by (vm_compute; reflexivity).
  assert (H5 : Z.testbit (xstate_bv_of xs) 6 = true) by (vm_compute; reflexivity).
  assert (H6 : length (ZmmSpace zero_xstate) = 512%nat) by (vm_compute; reflexivity).
  assert (Hoff : zmmHi256offset x = 1152) by (vm_compute; reflexivity).
  split; [exact H1 |]. split; [exact Hoff |].
  destruct (X10_extension_rows_are_raw_bytes xs true zero_xstate 0 H1 H2 H3 H4)
    as [HY HZ].
  fold x in HY, HZ. specialize (HZ H5 H6). cbv zeta in HZ. rewrite Hoff in HZ.
  split.
  - refine (eq_trans (HY 1%nat ltac:(lia)) _). vm_compute. reflexivity.
  - refine (eq_trans (HZ ltac:(lia) ltac:(vm_compute; discriminate)
                        1%nat ltac:(lia)) _).
    vm_compute. reflexivity.
Defined.

(** ** The encoder, further *)

Lemma Decode_set_Xsave v st : Decode (set_Xsave v st) = Decode st.
Proof. rewrite !Decode_unrolled. reflexivity. Qed.

(** Whatever the call does, the state afterwards is the state before
    with other bytes, as many, in the buffer. *)
Lemma SetXmmRegister_shape st n value :
  exists es',
    fst (SetXmmRegister st n value)
    = set_Xsave (mkSlice es' (spare (Xsave st))) st /\
    length es' = length (elems (Xsave st)).
Proof.
  assert (Hid : exists es',
            st = set_Xsave (mkSlice es' (spare (Xsave st))) st /\
            length es' = length (elems (Xsave st))).
  { exists (elems (Xsave st)). split; [| reflexivity].
    destruct st as [fp [es sp] a y a5 z o]. reflexivity. }
  assert (Hcopy : forall xs', 
            spare xs' = spare (Xsave st) ->
            length (elems xs') = length (elems (Xsave st)) ->
            exists es',
              set_Xsave xs' st = set_Xsave (mkSlice es' (spare (Xsave st))) st /\
              length es' = length (elems (Xsave st))).
  { intros [es' sp'] Hs Hl. cbn [spare elems] in *. subst sp'.
    exists es'. split; [reflexivity | exact Hl]. }
  destruct (Z.lt_ge_cases n 16) as [Hn | Hn].
  2:{ unfold SetXmmRegister, call, SetXmmRegister_body.
      rewrite bind_when_return
        by (rewrite Z.geb_leb; apply Z.leb_le; exact Hn).
      exact Hid. }
  destruct (Z.le_gt_cases (blen value) 64) as [HL | HL].
  2:{ unfold SetXmmRegister, call, SetXmmRegister_body.
      rewrite bind_when_false by (rewrite Z.geb_leb; apply Z.leb_gt; lia).
      rewrite bind_when_return
        by (rewrite Z.gtb_ltb; apply Z.ltb_lt; exact HL).
      exact Hid. }
  rewrite SetXmmRegister_cases by assumption. cbv zeta.
  repeat match goal with
         | |- context [if ?c then _ else _] => destruct c
         end; cbn [fst]; first [exact Hid | apply Hcopy];
    unfold copy_at; cbn [spare elems]; rewrite ?length_inserts; reflexivity.
Qed.

(** X11: what the encoder never does.  Whatever the index and the value,
    and however the call ends, it changes no field of the state but the
    bytes of the raw buffer, it keeps the length and the capacity of the
    buffer, and the projection of the state is what it was: a register
    written with [SetXmmRegister] shows its new value only after the
    buffer is decoded again. *)
Theorem X11_setRegister_frame st n value :
  let st' := fst (SetXmmRegister st n value) in
  st' = set_Xsave (Xsave st') st /\
  len (Xsave st') = len (Xsave st) /\
  cap (Xsave st') = cap (Xsave st) /\
  Decode st' = Decode st.
Proof.
  intros st'. subst st'.
  destruct (SetXmmRegister_shape st n value) as (es' & -> & Hl).
  cbn [Xsave set_Xsave]. unfold len, cap; cbn [elems spare]. rewrite Hl.
  split; [reflexivity |]. split; [reflexivity |]. split; [reflexivity |].
  apply Decode_set_Xsave.
Qed.

(** X14: a value of 1 to 16 bytes whose target offset is inside the
    buffer while its end is beyond it is accepted: the call returns nil
    and stores only the bytes that fit, up to the end of the buffer. *)
Theorem X14_write_truncated_at_buffer_end st n value :
  0 <= n <= 15 -> 1 <= blen value <= 16 ->
  let xs := Xsave st in
  let xmmpos := _XSAVE_XMM_REGION_START + n * 16 in
  xmmpos < len xs < xmmpos + blen value ->
  SetXmmRegister st n value
  = (set_Xsave
       (mkSlice (take (Z.to_nat xmmpos) (elems xs)
                 ++ take (Z.to_nat (len xs - xmmpos)) value)
          (spare xs)) st,
     Return None).
Proof.
  intros Hn HL xs xmmpos Hpos.
  unfold _XSAVE_XMM_REGION_START in *.
  rewrite SetXmmRegister_cases by lia. cbv zeta.
  rewrite xmmpos_id by lia. fold xs xmmpos.
  rewrite (proj2 (Z.leb_gt _ _)) by lia.
  rewrite (proj2 (Z.ltb_ge _ _)) by (subst xmmpos; lia).
  rewrite (proj2 (Z.leb_le _ _)) by lia.
  rewrite (take_ge value 16) by (unfold blen in HL; lia).
  do 2 f_equal. unfold copy_at. f_equal.
  unfold len, blen in *. apply list_eq. intros j.
  destruct (decide (j < Z.to_nat xmmpos)%nat) as [H1 | H1].
  { rewrite list_lookup_inserts_lt by exact H1.
    rewrite lookup_app_l by (rewrite length_take; lia).
    rewrite lookup_take_lt by exact H1. reflexivity. }
  destruct (decide (j < length (elems xs))%nat) as [H2 | H2].
  - rewrite list_lookup_inserts by lia.
    rewrite lookup_app_r by (rewrite length_take; lia).
    rewrite length_take, lookup_take_lt by lia.
    f_equal. lia.
  - rewrite (lookup_ge_None_2 (list_inserts _ _ _))
      by (rewrite length_inserts; lia).
    symmetry. apply lookup_ge_None_2.
    rewrite length_app, !length_take. lia.
Qed.

Lemma X14_write_truncated_at_buffer_end_witness :
  let st := Inputs.state_on (Inputs.buffer 165 []) in
  snd (SetXmmRegister st 0 Inputs.value16) = Return None /\
  elems (Xsave (fst (SetXmmRegister st 0 Inputs.value16)))
  = replicate 160 x00 ++ replicate 5 x11.
Proof.
  intros st.
  rewrite (X14_write_truncated_at_buffer_end st 0 Inputs.value16).
  - split; [reflexivity | vm_compute; reflexivity].
  - lia.
  - vm_compute. split; discriminate.
  - vm_compute. split; reflexivity.
Defined.

(** X15: the four component tests read one bit each of the bitmap: bit 2
    for AVX, bit 6 for ZMM_Hi256, bit 7 for Hi16_ZMM and bit 9 for PKRU,
    whatever the other bits are. *)
Theorem X15_component_bits s :
  hasAVX s = Z.testbit s 2 /\ hasZMM_Hi256 s = Z.testbit s 6 /\
  hasHi16_ZMM s = Z.testbit s 7 /\ hasPKRU s = Z.testbit s 9.
Proof.
  split; [| split; [| split]]; apply land_bit_testbit; lia.
Qed.

(** ** Writing a register and decoding again *)

Lemma bytes_at_copy_in xs pos src :
  0 <= pos -> pos + blen src <= len xs ->
  bytes_at (copy_at xs pos src) (Z.to_nat pos) (length src) = src.
Proof.
  intros H0 H1. unfold bytes_at.
  pose proof (array_slice_eq (elems (copy_at xs pos src)) src pos H0) as E.
  unfold array_slice, blen in E.
  replace (Z.to_nat (pos + Z.of_nat (length src) - pos)) with (length src) in E
    by lia.
  apply E. intros i Hi. read_back. f_equal. lia.
Qed.

Lemma bytes_at_copy_out xs pos src (off k : nat) :
  0 <= pos ->
  Z.of_nat (off + k) <= pos \/ pos + blen src <= Z.of_nat off ->
  bytes_at (copy_at xs pos src) off k = bytes_at xs off k.
Proof.
  intros H0 Hd. unfold bytes_at. apply list_eq. intros i.
  destruct (decide (i < k)%nat) as [Hi | Hi].
  - rewrite !lookup_take_lt by exact Hi. rewrite !lookup_drop.
    apply lookup_copy_at_out; [exact H0 | lia].
  - rewrite !lookup_take_ge by lia. reflexivity.
Qed.

(** The 16 bytes of a register slot after a value of at most 16 bytes
    was stored at its start. *)
Lemma bytes_at_copy_prefix xs pos src :
  0 <= pos -> blen src <= 16 -> pos + 16 <= len xs ->
  bytes_at (copy_at xs pos src) (Z.to_nat pos) 16
  = src ++ drop (length src) (bytes_at xs (Z.to_nat pos) 16).
Proof.
  intros H0 HL Hlen. unfold bytes_at, blen, len in *. apply list_eq. intros i.
  destruct (decide (i < length src)%nat) as [Hi | Hi].
  - rewrite lookup_take_lt, lookup_drop by lia.
    rewrite lookup_app_l by exact Hi.
    pose proof (lookup_copy_at_in xs pos src (Z.to_nat pos + i)) as E.
    unfold blen, len in E. rewrite E by lia. f_equal. lia.
  - rewrite lookup_app_r by lia. rewrite lookup_drop.
    destruct (decide (i < 16)%nat) as [Hi' | Hi'].
    + rewrite !lookup_take_lt by lia. rewrite !lookup_drop.
      pose proof (lookup_copy_at_out xs pos src (Z.to_nat pos + i)) as E.
      unfold blen in E. rewrite E by lia. f_equal. lia.
    + rewrite !lookup_take_ge by lia. reflexivity.
Qed.

(** X12: a value of 1 to 16 bytes written to an index from 0 to 15 of a
    buffer longer than 576 bytes is what the register shows afterwards:
    the call returns nil, and decoding the buffer with the legacy parse,
    into any state and with any hint, projects [XMMn] as the value
    followed by the bytes the register had above it; a 16-byte value
    replaces the register. *)
Theorem X12_write_then_decode_XMM st n value :
  0 <= n <= 15 -> 1 <= blen value <= 16 -> 576 < len (Xsave st) ->
  let r := SetXmmRegister st n value in
  snd r = Return None /\
  forall regset hint,
    lookup_reg ("XMM" +:+ itoa n)
      (Decode (fst (AMD64XstateRead (Xsave (fst r)) true regset hint)))
    = Some (BytesVal
              (value ++ drop (length value)
                          (bytes_at (Xsave st) (Z.to_nat (160 + n * 16)) 16))).
Proof.
  intros Hn HL Hlen r.
  assert (Hr : r = (set_Xsave (copy_at (Xsave st) (160 + n * 16) value) st,
                    Return None)).
  { subst r. rewrite SetXmmRegister_success; try lia.
    rewrite (drop_ge value 16), (drop_ge value 32) by (unfold blen in HL; lia).
    rewrite take_nil, !copy_at_nil, take_ge by (unfold blen in HL; lia).
    reflexivity. }
  rewrite Hr. cbn [fst snd Xsave set_Xsave].
  split; [reflexivity |].
  intros regset hint.
  set (xs' := copy_at (Xsave st) (160 + n * 16) value).
  assert (Hlen' : 576 < len xs') by (unfold xs'; rewrite len_copy_at; exact Hlen).
  replace n with (Z.of_nat (Z.to_nat n)) at 1 by lia.
  rewrite lookup_XMM by lia.
  rewrite AMD64XstateRead_legacy by exact Hlen'.
  rewrite dec_fpregs_XmmSpace.
  rewrite take_drop_nested by lia.
  rewrite take_drop_take by lia.
  do 2 f_equal.
  replace (160 + 16 * Z.to_nat n)%nat with (Z.to_nat (160 + n * 16)) by lia.
  apply (bytes_at_copy_prefix (Xsave st) (160 + n * 16) value); lia.
Qed.

Lemma X12_write_then_decode_XMM_witness :
  let st := Inputs.state_on Inputs.avx_area in
  let after v :=
    lookup_reg "XMM3"
      (Decode (fst (AMD64XstateRead (Xsave (fst (SetXmmRegister st 3 v)))
                      true zero_xstate 0))) in
  576 < len (Xsave st) /\
  after Inputs.value16 = Some (BytesVal Inputs.value16) /\
  after [xaa; xbb]
  = Some (BytesVal [xaa; xbb; x03; x04; x05; x06; x07; x08;
                    x09; x0a; x0b; x0c; x0d; x0e; x0f; x10]).
Proof.
  intros st after.
  assert (H : 576 < len (Xsave st)) by (vm_compute; reflexivity).
  split; [exact H |].
  split.
  - destruct (X12_write_then_decode_XMM st 3 Inputs.value16) as [_ D];
      [lia | vm_compute; split; discriminate | exact H |].
    refine (eq_trans (D zero_xstate 0) _). vm_compute. reflexivity.
  - destruct (X12_write_then_decode_XMM st 3 [xaa; xbb]) as [_ D];
      [lia | vm_compute; split; discriminate | exact H |].
    refine (eq_trans (D zero_xstate 0) _). vm_compute. reflexivity.
Defined.

(** A 64-bit field that a copy does not reach keeps its value. *)
Lemma field64_copy_out xs pos src (off : nat) :
  0 <= pos ->
  Z.of_nat (off + 8) <= pos \/ pos + blen src <= Z.of_nat off ->
  field64 (copy_at xs pos src) off = field64 xs off.
Proof.
  intros H0 Hd. unfold field64.
  change (take 8 (drop off (elems (copy_at xs pos src))))
    with (bytes_at (copy_at xs pos src) off 8).
  rewrite bytes_at_copy_out by assumption. reflexivity.
Qed.

(** X13: decode, write all 64 bytes of a register, decode again.  On a
    standard-format buffer with the AVX and ZMM_Hi256 bits, decoded into
    a state that refers to it, with the recorded offset [off] at or after
    byte 832 and the block at [off] inside the buffer, a 64-byte value
    written to an index from 0 to 15 is accepted, and decoding the buffer
    again with the same hint returns nil and projects [XMMn], [YMMn] and
    [ZMMn] as bytes 0-15, 16-31 and 32-63 of the value. *)
Theorem X13_write_then_decode_all_slices xs regset hint n value :
  Xsave regset = xs -> len xs < 2 ^ 63 ->
  0 <= n <= 15 -> length value = 64%nat ->
  Z.testbit (xcomp_bv_of xs) 63 = false ->
  Z.testbit (xstate_bv_of xs) 2 = true ->
  Z.testbit (xstate_bv_of xs) 6 = true ->
  let st := fst (AMD64XstateRead xs true regset hint) in
  let off := zmmHi256offset st in
  832 <= off -> off + 512 <= len xs ->
  let r := SetXmmRegister st n value in
  snd r = Return None /\
  forall regset',
    length (YmmSpace regset') = 256%nat ->
    length (ZmmSpace regset') = 512%nat ->
    let r' := AMD64XstateRead (Xsave (fst r)) true regset' hint in
    snd r' = Return None /\
    lookup_reg ("XMM" +:+ itoa n) (Decode (fst r'))
    = Some (BytesVal (take 16 value)) /\
    lookup_reg ("YMM" +:+ itoa n) (Decode (fst r'))
    = Some (BytesVal (take 16 (drop 16 value))) /\
    lookup_reg ("ZMM" +:+ itoa n) (Decode (fst r'))
    = Some (BytesVal (drop 32 value)).
Proof.
  intros HX Hmax Hn HL Hc Ha Hz st off Ho1 Ho2 r.
  assert (Hlen : 832 <= len xs) by lia.
  assert (Hoff : off = if hint =? 0
                       then (if Z.testbit (xcr0_of xs) 9 && (len xs =? 2440)
                             then 896 else 1152)
                       else hint)
    by (apply AMD64XstateRead_offset; assumption).
  assert (HXs : Xsave st = xs)
    by (unfold st; rewrite AMD64XstateRead_Xsave; exact HX).
  set (v1 := take 16 value). set (v2 := take 16 (drop 16 value)).
  set (v3 := drop 32 value).
  assert (Hv1 : length v1 = 16%nat) by (unfold v1; rewrite length_take; lia).
  assert (Hv2 : length v2 = 16%nat)
    by (unfold v2; rewrite length_take, length_drop; lia).
  assert (Hv3 : length v3 = 32%nat) by (unfold v3; rewrite length_drop; lia).
  set (p1 := 160 + n * 16). set (p2 := 576 + n * 16). set (p3 := off + n * 32).
  set (xs3 := copy_at (copy_at (copy_at xs p1 v1) p2 v2) p3 v3).
  assert (Hr : r = (set_Xsave xs3 st, Return None)).
  { unfold r. rewrite SetXmmRegister_success; rewrite ?HXs; fold off;
      rewrite ?(int_id (off + n * 32)) by lia; unfold blen; rewrite ?HL;
      try lia.
    reflexivity. }
  rewrite Hr. cbn [fst snd Xsave set_Xsave].
  split; [reflexivity |].
  intros regset' Hy Hzl.
  set (r' := AMD64XstateRead xs3 true regset' hint).
  assert (Hlen3 : len xs3 = len xs) by (unfold xs3; rewrite !len_copy_at; reflexivity).
  assert (Hf : forall o : nat, (416 <= o)%nat -> (o + 8 <= 576)%nat ->
                 field64 xs3 o = field64 xs o).
  { intros o O1 O2. unfold xs3.
    rewrite !field64_copy_out; unfold blen; rewrite ?Hv1, ?Hv2, ?Hv3;
      unfold p1, p2, p3; first [reflexivity | lia]. }
  assert (Hr' : r' =
    (set_ZmmSpace
       (copy_array (ZmmSpace regset') (bytes_at xs3 (Z.to_nat off) 512))
       (set_Avx512State true
          (set_zmmHi256offset off
             (set_YmmSpace
                (copy_array (YmmSpace regset') (bytes_at xs3 576 256))
                (set_AvxState true
                   (set_PtraceFpRegs (dec_fpregs (take 512 (elems xs3)))
                      regset'))))),
     Return None)).
  { unfold r'. rewrite Hoff.
    pose proof (AMD64XstateRead_both_blocks xs3 true regset' hint) as B.
    cbv zeta in B. unfold xcomp_bv_of, xstate_bv_of, xcr0_of in *.
    rewrite !Hf, Hlen3 in B by lia.
    rewrite <- Hoff in *. apply B; assumption || lia. }
  assert (Hk : n = Z.of_nat (Z.to_nat n)) by lia.
  set (k := Z.to_nat n) in *.
  rewrite Hr'. cbn [fst snd]. split; [reflexivity |].
  rewrite Hk.
  rewrite lookup_XMM, lookup_YMM, lookup_ZMM by (reflexivity || lia).
  cbn [PtraceFpRegs YmmSpace ZmmSpace set_ZmmSpace set_Avx512State
       set_zmmHi256offset set_YmmSpace set_AvxState set_PtraceFpRegs].
  rewrite !copy_array_full
    by (rewrite length_bytes_at; [congruence | unfold len in *; lia]).
  rewrite dec_fpregs_XmmSpace.
  unfold bytes_at.
  rewrite !take_drop_nested by lia.
  rewrite take_drop_take by lia.
  change (take 16 (drop (160 + 16 * k) (elems xs3)))
    with (bytes_at xs3 (160 + 16 * k) 16).
  change (take 16 (drop (576 + 16 * k) (elems xs3)))
    with (bytes_at xs3 (576 + 16 * k) 16).
  change (take 32 (drop (Z.to_nat off + 32 * k) (elems xs3)))
    with (bytes_at xs3 (Z.to_nat off + 32 * k) 32).
  assert (B1 : bytes_at xs3 (160 + 16 * k) 16 = v1).
  { unfold xs3.
    rewrite !bytes_at_copy_out
      by (unfold blen; rewrite ?Hv2, ?Hv3; unfold p2, p3; lia).
    replace (160 + 16 * k)%nat with (Z.to_nat p1) by (unfold p1; lia).
    rewrite <- Hv1 at 1.
    apply bytes_at_copy_in; unfold blen, p1; rewrite ?Hv1; lia. }
  assert (B2 : bytes_at xs3 (576 + 16 * k) 16 = v2).
  { unfold xs3.
    rewrite bytes_at_copy_out
      by (unfold blen; rewrite ?Hv3; unfold p3; lia).
    replace (576 + 16 * k)%nat with (Z.to_nat p2) by (unfold p2; lia).
    rewrite <- Hv2 at 1.
    apply bytes_at_copy_in; unfold blen, p2; rewrite ?Hv2, ?len_copy_at; lia. }
  assert (B3 : bytes_at xs3 (Z.to_nat off + 32 * k) 32 = v3).
  { unfold xs3.
    replace (Z.to_nat off + 32 * k)%nat with (Z.to_nat p3) by (unfold p3; lia).
    rewrite <- Hv3 at 1.
    apply bytes_at_copy_in; unfold blen, p3; rewrite ?Hv3, ?len_copy_at; lia. }
  rewrite B1, B2, B3. split; [reflexivity | split; reflexivity].
Qed.

Lemma X13_write_then_decode_all_slices_witness :
  let xs := Inputs.intel_area in
  let st := fst (AMD64XstateRead xs true (Inputs.state_on xs) 0) in
  let r := SetXmmRegister st 3 Inputs.value64 in
  let r' := AMD64XstateRead (Xsave (fst r)) true zero_xstate 0 in
  zmmHi256offset st = 1152 /\
  snd r = Return None /\ snd r' = Return None /\
  lookup_reg "XMM3" (Decode (fst r')) = Some (BytesVal (replicate 16 x11)) /\
  lookup_reg "YMM3" (Decode (fst r')) = Some (BytesVal (replicate 16 x22)) /\
  lookup_reg "ZMM3" (Decode (fst r')) = Some (BytesVal (replicate 32 x33)).
Proof.
  intros xs st r r'.
  assert (Hoff : zmmHi256offset st = 1152) by (vm_compute; reflexivity).
  split; [exact Hoff |].
  assert (H1 : len xs < 2 ^ 63) by (vm_compute; reflexivity).
  assert (H2 : Z.testbit (xcomp_bv_of xs) 63 = false) by (vm_compute; reflexivity).
  assert (H3 : Z.testbit (xstate_bv_of xs) 2 = true) by (vm_compute; reflexivity).
  assert (H4 : Z.testbit (xstate_bv_of xs) 6 = true) by (vm_compute; reflexivity).
  assert (H5 : length Inputs.value64 = 64%nat) by reflexivity.
  assert (H6 : 0 <= 3 <= 15) by lia.
  pose proof (X13_write_then_decode_all_slices xs (Inputs.state_on xs) 0 3
                Inputs.value64 eq_refl H1 H6 H5 H2 H3 H4) as H.
  cbv zeta in H. fold st in H. rewrite Hoff in H. fold r in H.
  destruct H as [E D].
  - lia.
  - vm_compute. discriminate.
  - split; [exact E |].
    destruct (D zero_xstate eq_refl eq_refl) as (E' & X & Y & Z).
    fold r' in E', X, Y, Z.
    split; [exact E' |]. split; [exact X |]. split; [exact Y | exact Z].
Defined.

(** ** Writing twice *)

Lemma lookup_inserts_if (l k : list byte) (i j : nat) :
  list_inserts i k l !! j
  = if decide ((i <= j < i + length k)%nat /\ (j < length l)%nat)
    then k !! (j - i)%nat else l !! j.
Proof.
  destruct (decide _) as [[H1 H2] | H].
  - apply list_lookup_inserts; assumption.
  - destruct (decide (j < length l)%nat) as [Hj | Hj].
    + destruct (decide (j < i)%nat) as [Hlt | Hge].
      * apply list_lookup_inserts_lt, Hlt.
      * apply list_lookup_inserts_ge. lia.
    + rewrite (lookup_ge_None_2 l) by lia.
      apply lookup_ge_None_2. rewrite length_inserts. lia.
Qed.

(** Solves an equation between buffers built with [copy_at] by looking
    at each byte. *)
Ltac by_bytes :=
  unfold copy_at; cbn [elems spare]; f_equal;
  apply list_eq; intros j;
  rewrite ?lookup_inserts_if, ?length_inserts;
  repeat case_decide; first [reflexivity | lia].

Lemma copy_at_twice xs p1 v1 :
  copy_at (copy_at xs p1 v1) p1 v1 = copy_at xs p1 v1.
Proof. by_bytes. Qed.

Lemma copy_at_twice_2 xs p1 v1 p2 v2 :
  copy_at (copy_at (copy_at (copy_at xs p1 v1) p2 v2) p1 v1) p2 v2
  = copy_at (copy_at xs p1 v1) p2 v2.
Proof. by_bytes. Qed.

Lemma copy_at_twice_3 xs p1 v1 p2 v2 p3 v3 :
  copy_at (copy_at (copy_at
    (copy_at (copy_at (copy_at xs p1 v1) p2 v2) p3 v3) p1 v1) p2 v2) p3 v3
  = copy_at (copy_at (copy_at xs p1 v1) p2 v2) p3 v3.
Proof. by_bytes. Qed.

Lemma SetXmmRegister_rejected st n value :
  16 <= n \/ 64 < blen value -> fst (SetXmmRegister st n value) = st.
Proof.
  intros H. unfold SetXmmRegister, call, SetXmmRegister_body.
  destruct (n >=? 16) eqn:En.
  - rewrite bind_when_return by reflexivity. reflexivity.
  - rewrite bind_when_false by reflexivity.
    rewrite Z.geb_leb in En. apply Z.leb_gt in En.
    rewrite bind_when_return; [reflexivity |].
    rewrite Z.gtb_ltb. apply Z.ltb_lt. lia.
Qed.

(** X16: a call repeated with the same index and value, on the state the
    first call left, ends as the first call did and leaves that state as
    it is: repeating a write, accepted or refused, changes nothing. *)
Theorem X16_setRegister_repeated st n value :
  SetXmmRegister (fst (SetXmmRegister st n value)) n value
  = SetXmmRegister st n value.
Proof.
  destruct (Z.lt_ge_cases n 16) as [Hn | Hn];
    [| rewrite SetXmmRegister_rejected by lia; reflexivity].
  destruct (Z.le_gt_cases (blen value) 64) as [HL | HL];
    [| rewrite SetXmmRegister_rejected by lia; reflexivity].
  rewrite (SetXmmRegister_cases st) by assumption. cbv zeta.
  repeat match goal with
         | |- context [if ?c then _ else _] => destruct c eqn:?
         end;
    cbn [fst];
    rewrite SetXmmRegister_cases by assumption; cbv zeta;
    cbn [Xsave set_Xsave zmmHi256offset]; rewrite ?len_copy_at;
    repeat match goal with
           | H : _ = true |- _ => rewrite H
           | H : _ = false |- _ => rewrite H
           end;
    rewrite ?set_Xsave_set_Xsave,
            ?copy_at_twice_3, ?copy_at_twice_2, ?copy_at_twice;
    reflexivity.
Qed.

(** X17: the AVX-512 flag alone shows nothing.  While AVX is absent the
    projection is the same whatever the AVX-512 flag is, and the list has
    32 rows; it has 48 rows with AVX alone and 64 with both. *)
Theorem X17_avx512_rows_need_avx x :
  (AvxState x = false ->
   forall b, Decode (set_Avx512State b x) = Decode x) /\
  length (Decode x)
  = (32 + (if AvxState x then 16 + (if Avx512State x then 16 else 0) else 0))%nat.
Proof.
  split.
  - intros Ha b. rewrite !Decode_unrolled.
    destruct x as [fp xs a y a5 z o]. cbn [AvxState] in Ha. subst a.
    reflexivity.
  - rewrite Decode_unrolled. unfold Unrolled.rows, Spec.vector_rows.
    destruct (AvxState x), (Avx512State x); reflexivity.
Qed.

Lemma X17_avx512_rows_need_avx_witness :
  AvxState (set_Avx512State true zero_xstate) = false /\
  Decode (set_Avx512State true zero_xstate) = Decode zero_xstate /\
  length (Decode (set_Avx512State true zero_xstate)) = 32%nat.
Proof.
  split; [reflexivity |].
  split.
  - exact (proj1 (X17_avx512_rows_need_avx zero_xstate) eq_refl true).
  - exact (proj2 (X17_avx512_rows_need_avx (set_Avx512State true zero_xstate))).
Defined.

Lemma X5_decode_frame_witness :
  let st := Inputs.state_on Inputs.intel_area in
  let r := AMD64XstateRead Inputs.intel_area false st 0 in
  Xsave (fst r) = Inputs.intel_area /\
  PtraceFpRegs (fst r) = zero_fpregs /\
  Avx512State (fst r) = true.
Proof.
  intros st r.
  destruct (X5_decode_frame Inputs.intel_area false st 0) as (X & P & _ & _).
  fold r in X, P.
  split; [exact X |]. split; [exact (P eq_refl) |].
  vm_compute. reflexivity.
Defined.
